(** * The Nebula provisioner (authority/provisioner/nebula.go)

    A shallow embedding of the Nebula provisioner of the certificate
    authority: token authorization against a mesh (Nebula) certificate, the
    X.509 and SSH sign-option pipelines, and the two identity validators.

    Conventions.
    - A Go function returning [(T, error)] is a function into [result T]:
      [Ok v] is [(v, nil)], [Err e] is [(zero, e)], and [Panic] is a run-time
      panic (nil dereference, index out of range).
    - A Go function returning only [error] is a function into [option error],
      [None] being [nil].
    - Pointers that may be nil are [option]s; dereferencing goes through
      [deref].
    - Everything the file calls but does not define (the jose, cert, x509util
      and sshutil libraries, the Go standard library parsers, and the helpers
      of package provisioner that live in other files) is a field of the class
      [World]. *)

From Stdlib Require Import ZArith.
From stdpp Require Import base option list strings gmap.

Local Open Scope Z_scope.

(** ** Go values *)

(** A Go [byte], as an integer in [0, 256). *)
Abbreviation byte := Z (only parsing).

(** [time.Time] as nanoseconds since the Unix epoch, [time.Duration] as
    nanoseconds. *)
Abbreviation Time := Z (only parsing).
Abbreviation Duration := Z (only parsing).

Definition time_Second : Duration := 1000000000.
Definition time_Minute : Duration := 60 * time_Second.

(** [t.Unix()]. *)
Definition Time_Unix (t : Time) : Z := t `div` time_Second.

(** The conversion of an [int64] to [uint64]: it wraps around. *)
Definition uint64 (n : Z) : Z := n `mod` 2 ^ 64.

(** [context.Context]; no function of this file looks inside it. *)
Inductive Context : Type :=
  | context_Background
  | context_WithValue (parent : Context) (key val : string).

(** An [interface{}] holding a decoded JSON value. *)
Inductive JSONValue : Type :=
  | JNull
  | JBool (b : bool)
  | JNumber (n : Z)
  | JString (s : string).

(** ** package net *)

Definition IP : Type := list byte.
Definition IPMask : Type := list byte.

Record IPNet : Type := mkIPNet { ipnet_IP : IP; ipnet_Mask : IPMask }.

Definition IPv4len : nat := 4.
Definition IPv6len : nat := 16.

Definition v4InV6Prefix : list byte := [0; 0; 0; 0; 0; 0; 0; 0; 0; 0; 255; 255].

(** [net.IP.Equal]: same bytes, an IPv4 address and its IPv6 form being the
    same address. *)
Definition IP_Equal (ip x : IP) : bool :=
  if decide (length ip = length x) then bool_decide (ip = x)
  else if decide (length ip = IPv4len ∧ length x = IPv6len) then
    bool_decide (take 12 x = v4InV6Prefix) && bool_decide (ip = drop 12 x)
  else if decide (length ip = IPv6len ∧ length x = IPv4len) then
    bool_decide (take 12 ip = v4InV6Prefix) && bool_decide (drop 12 ip = x)
  else false.




(** ** package errs *)

(** Modelled from the spec: the error taxonomy of package errs (not under
    src/): a request-scoped failure is Unauthorized, Forbidden or an internal
    error. *)
Inductive ErrorKind : Type := Unauthorized | Forbidden | InternalServer.

(** The arguments a message format is applied to. *)
Inductive FmtArg : Type :=
  | ArgString (s : string)
  | ArgStrings (l : list string)
  | ArgIPs (l : list IP)
  | ArgIPNets (l : list IPNet).

(** A Go [error]: one produced by a library, or one of package errs, which
    carries its kind, its message format with the arguments, and the error it
    wraps. *)
#[local] Unset Elimination Schemes.
Inductive error : Type :=
  | LibraryError (msg : string)
  | StatusError (kind : ErrorKind) (format : string) (args : list FmtArg)
                (cause : option error).
#[local] Set Elimination Schemes.

(** Modelled from the spec: errs.Unauthorized, errs.UnauthorizedErr with
    errs.WithMessage, and errs.Forbidden (package errs is not under src/). *)
Definition errs_Unauthorized (format : string) (args : list FmtArg) : error :=
  StatusError Unauthorized format args None.
Definition errs_UnauthorizedErr (err : error) (message : string) : error :=
  StatusError Unauthorized message [] (Some err).
Definition errs_Forbidden (format : string) (args : list FmtArg) : error :=
  StatusError Forbidden format args None.

Definition error_kind (e : error) : option ErrorKind :=
  match e with
  | LibraryError _ => None
  | StatusError k _ _ _ => Some k
  end.

Definition error_message (e : error) : string :=
  match e with
  | LibraryError m => m
  | StatusError _ f _ _ => f
  end.

Global Instance ErrorKind_eq_dec : EqDecision ErrorKind.
Proof. solve_decision. Defined.

(** ** Results and panics *)

Inductive result (A : Type) : Type :=
  | Ok (a : A)
  | Err (e : error)
  | Panic (reason : string).
Arguments Ok {A} a.
Arguments Err {A} e.
Arguments Panic {A} reason.

Global Instance result_ret : MRet result := λ A a, Ok a.
Global Instance result_bind : MBind result := λ A B f r,
  match r with
  | Ok a => f a
  | Err e => Err e
  | Panic m => Panic m
  end.

(** [*p] for a pointer that may be nil. *)
Definition deref {A : Type} (p : option A) : result A :=
  match p with
  | Some a => Ok a
  | None => Panic "invalid memory address or nil pointer dereference"
  end.

(** [l[i]] for a slice. *)
Definition index {A : Type} (l : list A) (i : nat) : result A :=
  match l !! i with
  | Some a => Ok a
  | None => Panic "index out of range"
  end.

(** ** Data model *)

(** [cert.NebulaCertificateDetails] and [cert.NebulaCertificate] (package
    github.com/slackhq/nebula/cert): the fields this file reads. *)
Record NebulaCertificateDetails : Type := {
  Details_Name : string;
  Details_Ips : list IPNet;
  Details_Subnets : list IPNet;
  Details_Groups : list string;
  Details_NotBefore : Time;
  Details_NotAfter : Time;
  Details_PublicKey : list byte;
  Details_IsCA : bool;
  Details_Issuer : string;
}.

Record NebulaCertificate : Type := {
  Details : NebulaCertificateDetails;
  Signature : list byte;
}.

(** [cert.NebulaCAPool]: the trusted roots, by fingerprint. *)
Record NebulaCAPool : Type := {
  CAs : gmap string NebulaCertificate;
}.

(** The key handed to [jose.Verify]: the certificate's key bytes, typed as
    [ed25519.PublicKey] or as [x25519.PublicKey]. *)
Inductive PublicKey : Type :=
  | ed25519_PublicKey (b : list byte)
  | x25519_PublicKey (b : list byte).

(** [jose.Header] and [jose.JSONWebToken]. *)
Record Header : Type := {
  KeyID_ : string;
  Algorithm : string;
  ExtraHeaders : gmap string JSONValue;
}.

Record JSONWebToken : Type := {
  Headers : list Header;
  payload : list byte;
}.

(** NebulaCertHeader is the token header that contains a nebula
    certificate. *)
Definition NebulaCertHeader : string := "nbc".

(** Modelled from the spec: TimeDuration (package provisioner, not under
    src/): a validity bound of the SSH sub-claims, unset, absolute, or
    relative to the reference time. *)
Inductive TimeDuration : Type :=
  | TimeDuration_unset
  | TimeDuration_at (t : Time)
  | TimeDuration_after (d : Duration).

Definition TimeDuration_IsZero (td : TimeDuration) : bool :=
  match td with TimeDuration_unset => true | _ => false end.

Definition TimeDuration_RelativeTime (td : TimeDuration) (t : Time) : Time :=
  match td with
  | TimeDuration_unset => 0
  | TimeDuration_at t' => t'
  | TimeDuration_after d => t + d
  end.

(** Modelled from the spec: SignSSHOptions (package provisioner, not under
    src/): certificate-type hint, key-id override, principal list and
    validity bounds. *)
Record SignSSHOptions : Type := {
  CertType : string;
  KeyID : string;
  Principals : list string;
  ValidAfter : TimeDuration;
  ValidBefore : TimeDuration;
}.

Definition SSHHostCert : string := "host".
Definition sshutil_HostCert : string := "host".

(** Modelled from the spec: jwtPayload and stepPayload (package provisioner,
    not under src/): the registered claims of [jose.Claims], the SAN hints and
    the optional nested step object with its optional SSH sub-claims. *)
Record stepPayload : Type := {
  SSH : option SignSSHOptions;
}.

Record jwtPayload : Type := {
  Issuer : string;
  Subject : string;
  Audience : list string;
  Expiry : option Time;
  NotBefore : option Time;
  IssuedAt : option Time;
  Claims_ID : string;
  SANs : list string;
  Step : option stepPayload;
}.

(** [jose.Expected], as [authorizeToken] fills it. *)
Record Expected : Type := {
  Expected_Issuer : string;
  Expected_Time : Time;
}.

(** Modelled from the spec: Claimer (package provisioner, not under src/):
    the duration-limit policy, read through its methods. *)
Record Claimer : Type := {
  DefaultTLSCertDuration : Duration;
  MinTLSCertDuration : Duration;
  MaxTLSCertDuration : Duration;
  IsDisableRenewal : bool;
  IsSSHCAEnabled : bool;
}.

(** Modelled from the spec: Audiences (package provisioner, not under src/):
    the accepted audiences per operation. *)
Record Audiences : Type := {
  Sign : list string;
  Revoke : list string;
  SSHSign : list string;
  SSHRevoke : list string;
  SSHRenew : list string;
  SSHRekey : list string;
}.

(** Modelled from the spec: Options and Claims (package provisioner, not
    under src/): the per-provisioner template source and the optional
    duration-limit overrides. *)
Record Options : Type := {
  X509_Template : string;
  SSH_Template : string;
}.

Record Claims : Type := {
  Claims_DisableRenewal : option bool;
  Claims_EnableSSHCA : option bool;
}.

(** Modelled from the spec: the provisioner type tag (package provisioner,
    not under src/). *)
Inductive Type_ : Type :=
  | TypeNebula
  | TypeOf (tag : string).

(** The provisioner. [claimer], [caPool] and [audiences] hold what [Init]
    stored in them. *)
Record Nebula : Type := {
  ID : string;
  Nebula_Type : string;
  Name : string;
  Roots : list byte;
  Nebula_Claims : option Claims;
  Nebula_Options : option Options;
  claimer : Claimer;
  caPool : NebulaCAPool;
  audiences : Audiences;
}.

(** [x509.Certificate], [ssh.Certificate] and [x509.CertificateRequest]: the
    fields that matter here. *)
Record x509_Certificate : Type := {
  x509_Raw : list byte;
  x509_NotBefore : Time;
  x509_NotAfter : Time;
}.

Record ssh_Certificate : Type := {
  ssh_KeyId : string;
  ssh_ValidPrincipals : list string;
}.

Record x509_CertificateRequest : Type := {
  CommonName : string;
  DNSNames : list string;
  EmailAddresses : list string;
  IPAddresses : list IP;
  URIs : list string;
}.

(** [x509util.TemplateData] and [sshutil.TemplateData]:
    [map[string]interface{}]. *)
Inductive TemplateValue : Type :=
  | TemplateString (s : string)
  | TemplateStrings (l : list string)
  | TemplateToken (v : gmap string JSONValue)
  | TemplateCert (c : NebulaCertificate).

Abbreviation TemplateData := (gmap string TemplateValue).

Definition TokenKey : string := "Token".

(** [data.Set(key, v)] and [data.SetToken(v)]. *)
Definition TemplateData_Set (data : TemplateData) (key : string)
    (v : TemplateValue) : TemplateData := <[key := v]> data.
Definition TemplateData_SetToken (data : TemplateData)
    (v : gmap string JSONValue) : TemplateData :=
  TemplateData_Set data TokenKey (TemplateToken v).

(** The validators of this file, as values. *)
Record nebulaSANsValidator : Type := {
  sans_Name : string;
  sans_IPs : list IPNet;
}.

Record nebulaPrincipalsValidator : Type := {
  principals_Name : string;
  principals_IPs : list IPNet;
}.

(** SignOption: the elements of a sign-option pipeline. Those built in other
    files of package provisioner are kept as the constructor call with its
    arguments. *)
Inductive SignOption : Type :=
  | certificateOptions (o : option Options) (data : TemplateData)
  | sshCertificateOptions (o : option Options) (data : TemplateData)
  | newProvisionerExtensionOption (typ : Type_) (name credentialID : string)
  | profileLimitDuration (def : Duration) (notBefore notAfter : Time)
  | commonNameValidator (subject : string)
  | nebulaSANsValidator_ (v : nebulaSANsValidator)
  | defaultPublicKeyValidator
  | newValidityValidator (min max : Duration)
  | sshCertOptionsValidator (o : SignSSHOptions)
  | sshCertValidAfterModifier (unix : Z) (* a uint64 *)
  | sshCertValidBeforeModifier (unix : Z) (* a uint64 *)
  | sshLimitDuration (c : Claimer) (NotAfter : Time)
  | sshDefaultPublicKeyValidator
  | sshCertValidityValidator (c : Claimer)
  | sshCertDefaultValidator.

(** ** What the file calls and does not define *)

Class World : Type := {
  (** [now()], the reference-time source of package provisioner, pinned for
      the length of a call. *)
  now : Time;
  (** [jose.ParseSigned]. *)
  jose_ParseSigned : string → error + JSONWebToken;
  (** [base64.RawURLEncoding.DecodeString]. *)
  base64_RawURLEncoding_DecodeString : string → error + list byte;
  (** [cert.UnmarshalNebulaCertificateFromPEM]: the certificate and the
      remaining bytes. *)
  cert_UnmarshalNebulaCertificateFromPEM :
    list byte → error + (NebulaCertificate * list byte);
  (** [c.Verify(t, pool)]: the verdict and the error. *)
  NebulaCertificate_Verify :
    NebulaCertificate → Time → NebulaCAPool → bool * option error;
  (** [jose.Verify(jwt, pub, &claims)]: the decoded claims. *)
  jose_Verify : JSONWebToken → PublicKey → error + jwtPayload;
  (** [claims.ValidateWithLeeway(expected, leeway)]. *)
  ValidateWithLeeway : jwtPayload → Expected → Duration → option error;
  (** [matchesAudience] of package provisioner. *)
  matchesAudience : list string → list string → bool;
  (** [unsafeParseSigned] of package provisioner. *)
  unsafeParseSigned : string → error + gmap string JSONValue;
  (** [x509util.CreateTemplateData] and [sshutil.CreateTemplateData]. *)
  x509util_CreateTemplateData : string → list string → TemplateData;
  sshutil_CreateTemplateData : string → string → list string → TemplateData;
  (** [TemplateOptions] and [TemplateSSHOptions] of package provisioner. *)
  TemplateOptions : option Options → TemplateData → error + SignOption;
  TemplateSSHOptions : option Options → TemplateData → error + SignOption;
  (** [x509util.SplitSANs]: DNS names, IPs, emails, URIs. *)
  x509util_SplitSANs :
    list string → list string * list IP * list string * list string;
  (** [dnsNamesValidator(names).Valid(req)] and its siblings of package
      provisioner. *)
  dnsNamesValidator_Valid : list string → x509_CertificateRequest → option error;
  emailAddressesValidator_Valid :
    list string → x509_CertificateRequest → option error;
  urisValidator_Valid : list string → x509_CertificateRequest → option error;
  (** [net.ParseIP] ([None] is nil) and [ip.String()]. *)
  net_ParseIP : string → option IP;
  IP_String : IP → string;
}.

(** ** The provisioner's methods *)

(** GetIDForToken returns an identifier that will be used to load the
    provisioner from a token. *)
Definition GetIDForToken (p : Nebula) : string :=
  "nebula/" +:+ Name p.

(** GetID returns the provisioner id. *)
Definition GetID (p : Nebula) : string :=
  if bool_decide (ID p ≠ "") then ID p else GetIDForToken p.

(** GetName returns the name of the provisioner. *)
Definition GetName (p : Nebula) : string := Name p.

(** GetType returns the type of provisioner. *)
Definition GetType (p : Nebula) : Type_ := TypeNebula.

(** GetEncryptedKey returns the base provisioner encrypted key if it's
    defined. *)
Definition GetEncryptedKey (p : Nebula) : string * string * bool :=
  ("", "", false).

(** AuthorizeSSHRenew returns an unauthorized error: the Go pair of an SSH
    certificate pointer and an error. *)
Definition AuthorizeSSHRenew (p : Nebula) (ctx : Context) (token : string)
    : option ssh_Certificate * option error :=
  (None, Some (errs_Unauthorized "nebula provisioner does not support SSH renew" [])).

(** AuthorizeSSHRekey returns an unauthorized error: the Go triple of an
    SSH certificate pointer, a slice of sign options (nil is the empty list)
    and an error. *)
Definition AuthorizeSSHRekey (p : Nebula) (ctx : Context) (token : string)
    : option ssh_Certificate * list SignOption * option error :=
  (None, [], Some (errs_Unauthorized "nebula provisioner does not support SSH rekey" [])).

(** AuthorizeRenew returns an error if the renewal is disabled. *)
Definition AuthorizeRenew (p : Nebula) (ctx : Context)
    (cert : option x509_Certificate) : option error :=
  if IsDisableRenewal (claimer p) then
    Some (errs_Unauthorized "renew is disabled for nebula provisioner '%s'"
                            [ArgString (GetName p)])
  else None.

(** [for _, ipnet := range ips { if ip.Equal(ipnet.IP) { valid = true; break } }]:
    whether the loop sets [valid]. *)
Fixpoint equalsSomeNetworkIP (ip : IP) (ips : list IPNet) : bool :=
  match ips with
  | [] => false
  | ipnet :: rest =>
    if IP_Equal ip (ipnet_IP ipnet) then true else equalsSomeNetworkIP ip rest
  end.

(** [for _, ipInName := range ips { if ip.Equal(ipInName) { valid = true; break } }]. *)
Fixpoint equalsSomeIP (ip : IP) (ips : list IP) : bool :=
  match ips with
  | [] => false
  | ipInName :: rest =>
    if IP_Equal ip ipInName then true else equalsSomeIP ip rest
  end.

Section Provisioner.
Context `{W : World}.

(** The token authorization shared by every operation. *)
Definition authorizeToken (p : Nebula) (token : string)
    (audiences : list string) : result (NebulaCertificate * jwtPayload) :=
  match jose_ParseSigned token with
  | inl err => Err (errs_UnauthorizedErr err "failed to parse token")
  | inr jwt =>
    (* Extract nebula certificate *)
    h ← index (Headers jwt) 0;
    match ExtraHeaders h !! NebulaCertHeader with
    | None => Err (errs_Unauthorized "failed to parse token: nbc header is missing" [])
    | Some (JString s) =>
      match base64_RawURLEncoding_DecodeString s with
      | inl err =>
        Err (errs_UnauthorizedErr err "failed to parse token: nbc header is not valid")
      | inr b =>
        match cert_UnmarshalNebulaCertificateFromPEM b with
        | inl err =>
          Err (errs_UnauthorizedErr err
                 "failed to parse nebula certificate: nbc header is not valid")
        | inr (c, _) =>
          (* Validate nebula certificate against CA *)
          match NebulaCertificate_Verify c now (caPool p) with
          | (false, Some err) =>
            Err (errs_UnauthorizedErr err
                   "token is not valid: failed to unmarshal certificate")
          | (false, None) =>
            Err (errs_Unauthorized
                   "token is not valid: failed to unmarshal certificate" [])
          | (true, _) =>
            let pub :=
              if Details_IsCA (Details c)
              then ed25519_PublicKey (Details_PublicKey (Details c))
              else x25519_PublicKey (Details_PublicKey (Details c)) in
            (* Validate token with public key *)
            match jose_Verify jwt pub with
            | inl err =>
              Err (errs_UnauthorizedErr err
                     "token is not valid: signature does not match")
            | inr claims =>
              (* According to "rfc7519 JSON Web Token" acceptable skew
                 should be no more than a few minutes. *)
              match ValidateWithLeeway claims
                      {| Expected_Issuer := Name p; Expected_Time := now |}
                      time_Minute with
              | Some err =>
                Err (errs_UnauthorizedErr err "token is not valid: invalid claims")
              | None =>
                (* Validate token and subject too. *)
                if negb (matchesAudience (Audience claims) audiences) then
                  Err (errs_Unauthorized "token is not valid: invalid claims" [])
                else if bool_decide (Subject claims = "") then
                  Err (errs_Unauthorized
                         "token is not valid: subject cannot be empty" [])
                else Ok (c, claims)
              end
            end
          end
        end
      end
    | Some _ => Err (errs_Unauthorized "failed to parse token: nbc header is not valid" [])
    end
  end.

Definition validateToken (p : Nebula) (token : string)
    (audiences : list string) : result unit :=
  authorizeToken p token audiences ≫= λ _, Ok ().

(** AuthorizeRevoke returns an error if the token is not valid. *)
Definition AuthorizeRevoke (p : Nebula) (ctx : Context) (token : string)
    : result unit :=
  validateToken p token (Revoke (audiences p)).

(** AuthorizeSSHRevoke returns an error if SSH is disabled or the token is
    invalid. *)
Definition AuthorizeSSHRevoke (p : Nebula) (ctx : Context) (token : string)
    : result unit :=
  if negb (IsSSHCAEnabled (claimer p)) then
    Err (errs_Unauthorized "ssh is disabled for nebula provisioner '%s'"
                           [ArgString (Name p)])
  else authorizeToken p token (Revoke (audiences p)) ≫= λ _, Ok ().

(** The template data of both pipelines: the token, when it parses, and the
    certificate are added to the data just created. *)
Definition withTokenAndCert (data : TemplateData) (token : string)
    (cert : NebulaCertificate) : TemplateData :=
  let data :=
    match unsafeParseSigned token with
    | inr v => TemplateData_SetToken data v
    | inl _ => data
    end in
  TemplateData_Set data "Cert" (TemplateCert cert).

(** AuthorizeSign returns the list of SignOption for a Sign request. *)
Definition AuthorizeSign (p : Nebula) (ctx : Context) (token : string)
    : result (list SignOption) :=
  '(cert, claims) ← authorizeToken p token (Sign (audiences p));
  let data := x509util_CreateTemplateData (Subject claims) (SANs claims) in
  let data := withTokenAndCert data token cert in
  match TemplateOptions (Nebula_Options p) data with
  | inl err => Err err
  | inr templateOptions =>
    Ok [ templateOptions;
         (* modifiers / withOptions *)
         newProvisionerExtensionOption TypeNebula (Name p) "";
         profileLimitDuration
           (DefaultTLSCertDuration (claimer p))
           (Details_NotBefore (Details cert))
           (Details_NotAfter (Details cert));
         (* validators *)
         commonNameValidator (Subject claims);
         nebulaSANsValidator_
           {| sans_Name := Details_Name (Details cert);
              sans_IPs := Details_Ips (Details cert) |};
         defaultPublicKeyValidator;
         newValidityValidator (MinTLSCertDuration (claimer p))
                              (MaxTLSCertDuration (claimer p)) ]
  end.

(** *** nebulaSANsValidator *)

(** The loop of [Valid] over the requested IP addresses: each must equal an
    IP in the name or the IP of one of the networks. *)
Fixpoint checkIPAddresses (v : nebulaSANsValidator)
    (req : x509_CertificateRequest) (ips : list IP) (todo : list IP)
    : option error :=
  match todo with
  | [] => None
  | ip :: rest =>
    (* Check ip in name *)
    let valid := equalsSomeIP ip ips in
    (* Check ip network *)
    let valid :=
      if negb valid then equalsSomeNetworkIP ip (sans_IPs v) else valid in
    if negb valid then
      Some (errs_Forbidden
              "certificate request does not contain the valid IP addresses - got %v, want %v"
              [ArgIPs (IPAddresses req); ArgIPNets (sans_IPs v)])
    else checkIPAddresses v req ips rest
  end.

(** Valid verifies that the SANs stored in the validator are contained with
    those requested in the x509 certificate request. *)
Definition nebulaSANsValidator_Valid (v : nebulaSANsValidator)
    (req : x509_CertificateRequest) : option error :=
  let '(dnsNames, ips, emails, uris) := x509util_SplitSANs [sans_Name v] in
  match (if bool_decide (0 < length (DNSNames req))%nat
         then dnsNamesValidator_Valid dnsNames req else None) with
  | Some err => Some err
  | None =>
    match (if bool_decide (0 < length (EmailAddresses req))%nat
           then emailAddressesValidator_Valid emails req else None) with
    | Some err => Some err
    | None =>
      match (if bool_decide (0 < length (URIs req))%nat
             then urisValidator_Valid uris req else None) with
      | Some err => Some err
      | None =>
        if bool_decide (0 < length (IPAddresses req))%nat
        then checkIPAddresses v req ips (IPAddresses req)
        else None
      end
    end
  end.

(** *** nebulaPrincipalsValidator *)

(** The loop of [Valid] over the requested principals. *)
Fixpoint checkPrincipals (v : nebulaPrincipalsValidator)
    (got : SignSSHOptions) (todo : list string) : option error :=
  match todo with
  | [] => None
  | p :: rest =>
    let valid := bool_decide (p = principals_Name v) in
    let valid :=
      if negb valid then
        match net_ParseIP p with
        | Some ip => equalsSomeNetworkIP ip (principals_IPs v)
        | None => valid
        end
      else valid in
    if negb valid then
      Some (errs_Forbidden
              "ssh certificate principals does contain a valid name or IP address - got %v, want %s or %v"
              [ArgStrings (Principals got); ArgString (principals_Name v);
               ArgIPNets (principals_IPs v)])
    else checkPrincipals v got rest
  end.

(** Valid checks that the SignSSHOptions principals contains only names in
    the nebula certificate. *)
Definition nebulaPrincipalsValidator_Valid (v : nebulaPrincipalsValidator)
    (got : SignSSHOptions) : option error :=
  checkPrincipals v got (Principals got).

(** *** AuthorizeSSHSign *)

(** [for i, ipnet := range ips { principals[i+1] = ipnet.IP.String() }],
    from index [i] on. *)
Fixpoint fillPrincipals (i : nat) (ips : list IPNet)
    (principals : list string) : list string :=
  match ips with
  | [] => principals
  | ipnet :: rest =>
    fillPrincipals (S i) rest (<[(i + 1)%nat := IP_String (ipnet_IP ipnet)]> principals)
  end.

(** Default template attributes: the principals. *)
Definition defaultPrincipals (cert : NebulaCertificate) : list string :=
  let principals := replicate (length (Details_Ips (Details cert)) + 1) "" in
  let principals := <[0%nat := Details_Name (Details cert)]> principals in
  fillPrincipals 0 (Details_Ips (Details cert)) principals.

(** The guard [claims.Step != nil || claims.Step.SSH != nil]: the right
    operand is evaluated when the left one is false, and reads through
    [claims.Step]. *)
Definition stepSSHGiven (claims : jwtPayload) : result bool :=
  if bool_decide (Step claims ≠ None) then Ok true
  else step ← deref (Step claims); Ok (bool_decide (SSH step ≠ None)).

(** AuthorizeSSHSign returns the list of SignOption for a SignSSH request.
    Currently the nebula provisioner only grant host ssh certificates *)
Definition AuthorizeSSHSign (p : Nebula) (ctx : Context) (token : string)
    : result (list SignOption) :=
  if negb (IsSSHCAEnabled (claimer p)) then
    Err (errs_Unauthorized "ssh is disabled for nebula provisioner '%s'"
                           [ArgString (Name p)])
  else
    '(cert, claims) ← authorizeToken p token (SSHSign (audiences p));
    (* Default template attributes. *)
    let keyID := Subject claims in
    let principals := defaultPrincipals cert in
    let signOptions : list SignOption := [] in
    (* If step ssh options are given, validate them and set key id,
       principals and validity. *)
    given ← stepSSHGiven claims;
    '(signOptions, keyID, principals) ←
      (if given : bool then
         step ← deref (Step claims);
         let opts := SSH step in
         (* Check that the token only contains valid principals. *)
         let v := {| principals_Name := Details_Name (Details cert);
                     principals_IPs := Details_Ips (Details cert) |} in
         o ← deref opts;
         match nebulaPrincipalsValidator_Valid v o with
         | Some err => Err err
         | None =>
           (* Check that the cert type is a valid one. *)
           if bool_decide (CertType o ≠ "") && bool_decide (CertType o ≠ SSHHostCert)
           then
             Err (errs_Forbidden
                    "ssh certificate type does not match - got %v, want %v"
                    [ArgString (CertType o); ArgString SSHHostCert])
           else
             let signOptions :=
               [ (* validate is a host certificate and users's KeyID is
                    the subject. *)
                 sshCertOptionsValidator
                   {| CertType := SSHHostCert; KeyID := Subject claims;
                      Principals := []; ValidAfter := TimeDuration_unset;
                      ValidBefore := TimeDuration_unset |};
                 (* validates user's SSHOptions with the ones in the token *)
                 sshCertOptionsValidator o ] in
             (* Use options in the token. *)
             let keyID := if bool_decide (KeyID o ≠ "") then KeyID o else keyID in
             let principals :=
               if bool_decide (0 < length (Principals o))%nat
               then Principals o else principals in
             (* Add modifiers from custom claims: the modifier types are
                unsigned 64-bit integers, and the Unix time is converted
                to them. *)
             let t := now in
             let signOptions :=
               if negb (TimeDuration_IsZero (ValidAfter o)) then
                 signOptions ++
                 [sshCertValidAfterModifier
                    (uint64 (Time_Unix (TimeDuration_RelativeTime (ValidAfter o) t)))]
               else signOptions in
             let signOptions :=
               if negb (TimeDuration_IsZero (ValidBefore o)) then
                 signOptions ++
                 [sshCertValidBeforeModifier
                    (uint64 (Time_Unix (TimeDuration_RelativeTime (ValidBefore o) t)))]
               else signOptions in
             Ok (signOptions, keyID, principals)
         end
       else Ok (signOptions, keyID, principals));
    (* Certificate templates. *)
    let data := sshutil_CreateTemplateData sshutil_HostCert keyID principals in
    let data := withTokenAndCert data token cert in
    match TemplateSSHOptions (Nebula_Options p) data with
    | inl err => Err err
    | inr templateOptions =>
      Ok (signOptions ++
          [ templateOptions;
            (* Checks the validity bounds, and set the validity if has not
               been set. *)
            sshLimitDuration (claimer p) (Details_NotAfter (Details cert));
            (* Validate public key. *)
            sshDefaultPublicKeyValidator;
            (* Validate the validity period. *)
            sshCertValidityValidator (claimer p);
            (* Require all the fields in the SSH certificate *)
            sshCertDefaultValidator ])
    end.

End Provisioner.

(** ** Vocabulary of the statements *)

Section Vocabulary.
Context `{W : World}.

(** The token carries the mesh certificate [c]: it parses to [jwt], its
    first header holds the encoded certificate, and the certificate verifies
    against the provisioner's roots at the reference time. *)
Definition tokenCarries (p : Nebula) (token : string) (jwt : JSONWebToken)
    (c : NebulaCertificate) : Prop :=
  ∃ h s b rest verr,
    jose_ParseSigned token = inr jwt ∧
    Headers jwt !! 0%nat = Some h ∧
    ExtraHeaders h !! NebulaCertHeader = Some (JString s) ∧
    base64_RawURLEncoding_DecodeString s = inr b ∧
    cert_UnmarshalNebulaCertificateFromPEM b = inr (c, rest) ∧
    NebulaCertificate_Verify c now (caPool p) = (true, verr).

(** The key the certificate's role selects. *)
Definition keyOf (c : NebulaCertificate) : PublicKey :=
  if Details_IsCA (Details c)
  then ed25519_PublicKey (Details_PublicKey (Details c))
  else x25519_PublicKey (Details_PublicKey (Details c)).

(** The token carries [c] and its signature verifies, under the key of [c],
    to the claims [claims]. *)
Definition tokenDecodesTo (p : Nebula) (token : string)
    (c : NebulaCertificate) (claims : jwtPayload) : Prop :=
  ∃ jwt, tokenCarries p token jwt c ∧ jose_Verify jwt (keyOf c) = inr claims.

(** The four conditions on decoded claims: the registered claims validate
    against the provisioner's name as issuer and the reference time, with a
    leeway of one minute; the audience matches; the subject is not empty. *)
Definition claimsAccepted (p : Nebula) (claims : jwtPayload)
    (audiences : list string) : Prop :=
  ValidateWithLeeway claims
    {| Expected_Issuer := Name p; Expected_Time := now |} time_Minute = None ∧
  matchesAudience (Audience claims) audiences = true ∧
  Subject claims ≠ "".

(** A principal the mesh certificate allows: its name, or an IP address
    equal to the IP of one of its networks. *)
Definition principalAllowed (v : nebulaPrincipalsValidator) (s : string) : Prop :=
  s = principals_Name v ∨
  ∃ ip n, net_ParseIP s = Some ip ∧ n ∈ principals_IPs v ∧
          IP_Equal ip (ipnet_IP n) = true.

End Vocabulary.

Definition isKind (k : ErrorKind) (e : option error) : Prop :=
  ∃ e', e = Some e' ∧ error_kind e' = Some k.

(** Two worlds agree on the helpers the SAN validator calls. *)
Definition sameSANHelpers (W1 W2 : World) : Prop :=
  (∀ l, @x509util_SplitSANs W1 l = @x509util_SplitSANs W2 l) ∧
  (∀ l r, @dnsNamesValidator_Valid W1 l r = @dnsNamesValidator_Valid W2 l r) ∧
  (∀ l r, @emailAddressesValidator_Valid W1 l r = @emailAddressesValidator_Valid W2 l r) ∧
  (∀ l r, @urisValidator_Valid W1 l r = @urisValidator_Valid W2 l r).

(** ** A concrete world and provisioner *)

Module Sample.

Definition ip4 (a b c d : Z) : IP := [a; b; c; d].
Definition ip16 (a b c d : Z) : IP := v4InV6Prefix ++ [a; b; c; d].
Definition mask24 : IPMask := [255; 255; 255; 0].

(** The mesh certificate of node-7, address 10.0.0.7 in 10.0.0.0/24. *)
Definition leafKey : list byte := [7; 7; 7; 7].
Definition leaf : NebulaCertificate :=
  {| Details :=
       {| Details_Name := "node-7";
          Details_Ips := [mkIPNet (ip4 10 0 0 7) mask24];
          Details_Subnets := [];
          Details_Groups := [];
          Details_NotBefore := 1000 * time_Second;
          Details_NotAfter := 9000 * time_Second;
          Details_PublicKey := leafKey;
          Details_IsCA := false;
          Details_Issuer := "root" |};
     Signature := [1] |}.

Definition signAudience : string := "https://ca/1.0/sign#nebula/edge1".
Definition sshSignAudience : string := "https://ca/1.0/ssh/sign#nebula/edge1".

(** Claims without SSH sub-claims, for both sign audiences. *)
Definition goodClaims : jwtPayload :=
  {| Issuer := "edge1"; Subject := "node-7";
     Audience := [signAudience; sshSignAudience];
     Expiry := Some (5300 * time_Second);
     NotBefore := Some (5000 * time_Second);
     IssuedAt := Some (5000 * time_Second);
     Claims_ID := "jti-1"; SANs := ["node-7"]; Step := None |}.

(** The same claims for an audience the provisioner does not accept. *)
Definition strayClaims : jwtPayload :=
  {| Issuer := "edge1"; Subject := "node-7";
     Audience := ["https://elsewhere/1.0/sign"];
     Expiry := Some (5300 * time_Second);
     NotBefore := Some (5000 * time_Second);
     IssuedAt := Some (5000 * time_Second);
     Claims_ID := "jti-2"; SANs := ["node-7"]; Step := None |}.

(** Claims with SSH sub-claims: one asking for the certificate's own name and
    address, one asking for a name the certificate does not hold. *)
Definition ownPrincipals : SignSSHOptions :=
  {| CertType := "host"; KeyID := "node-7.ssh";
     Principals := ["node-7"; "10.0.0.7"];
     ValidAfter := TimeDuration_unset;
     ValidBefore := TimeDuration_after (60 * time_Minute) |}.

Definition foreignPrincipals : SignSSHOptions :=
  {| CertType := "host"; KeyID := "";
     Principals := ["node-7"; "node-9"];
     ValidAfter := TimeDuration_unset; ValidBefore := TimeDuration_unset |}.

Definition sshClaims (o : SignSSHOptions) : jwtPayload :=
  {| Issuer := "edge1"; Subject := "node-7";
     Audience := [sshSignAudience];
     Expiry := Some (5300 * time_Second);
     NotBefore := Some (5000 * time_Second);
     IssuedAt := Some (5000 * time_Second);
     Claims_ID := "jti-3"; SANs := [];
     Step := Some {| SSH := Some o |} |}.

Definition jwtOf (body : byte) : JSONWebToken :=
  {| Headers := [ {| KeyID_ := ""; Algorithm := "XEdDSA";
                     ExtraHeaders := {[ NebulaCertHeader := JString "bGVhZg" ]} |} ];
     payload := [body] |}.

Definition parseIP (s : string) : option IP :=
  if bool_decide (s = "10.0.0.7") then Some (ip16 10 0 0 7)
  else if bool_decide (s = "10.0.0.9") then Some (ip16 10 0 0 9)
  else None.

Definition within (names : list string) (asked : list string) : bool :=
  forallb (λ s, bool_decide (s ∈ names)) asked.

Definition world (clock : Time) : World :=
  {| now := clock;
     jose_ParseSigned := λ token,
       if bool_decide (token = "good.token") then inr (jwtOf 1)
       else if bool_decide (token = "stray.token") then inr (jwtOf 2)
       else if bool_decide (token = "own.token") then inr (jwtOf 3)
       else if bool_decide (token = "foreign.token") then inr (jwtOf 4)
       else inl (LibraryError "compact JWS format must have three parts");
     base64_RawURLEncoding_DecodeString := λ s,
       if bool_decide (s = "bGVhZg") then inr [108; 101; 97; 102]
       else inl (LibraryError "illegal base64 data");
     cert_UnmarshalNebulaCertificateFromPEM := λ b,
       if bool_decide (b = [108; 101; 97; 102]) then inr (leaf, [])
       else inl (LibraryError "input did not contain a valid PEM encoded block");
     NebulaCertificate_Verify := λ c t pool,
       if bool_decide (Details_NotBefore (Details c) ≤ t ≤ Details_NotAfter (Details c))
       then (true, None) else (false, Some (LibraryError "certificate is expired"));
     jose_Verify := λ jwt pub,
       match pub, payload jwt with
       | x25519_PublicKey k, [1] =>
         if bool_decide (k = leafKey) then inr goodClaims
         else inl (LibraryError "error in cryptographic primitive")
       | x25519_PublicKey k, [2] =>
         if bool_decide (k = leafKey) then inr strayClaims
         else inl (LibraryError "error in cryptographic primitive")
       | x25519_PublicKey k, [3] =>
         if bool_decide (k = leafKey) then inr (sshClaims ownPrincipals)
         else inl (LibraryError "error in cryptographic primitive")
       | x25519_PublicKey k, [4] =>
         if bool_decide (k = leafKey) then inr (sshClaims foreignPrincipals)
         else inl (LibraryError "error in cryptographic primitive")
       | _, _ => inl (LibraryError "error in cryptographic primitive")
       end;
     ValidateWithLeeway := λ claims e leeway,
       if negb (bool_decide (Issuer claims = Expected_Issuer e)) then
         Some (LibraryError "validation failed, invalid issuer claim (iss)")
       else if match NotBefore claims with
               | Some nbf => bool_decide (Expected_Time e + leeway < nbf)
               | None => false
               end then
         Some (LibraryError "validation failed, token not valid yet (nbf)")
       else if match Expiry claims with
               | Some exp => bool_decide (exp < Expected_Time e - leeway)
               | None => false
               end then
         Some (LibraryError "validation failed, token is expired (exp)")
       else None;
     matchesAudience := λ as_ bs,
       existsb (λ a, bool_decide (a ∈ bs)) as_;
     unsafeParseSigned := λ token,
       inl (LibraryError "error parsing token");
     x509util_CreateTemplateData := λ subject sans,
       {[ "Subject" := TemplateString subject; "SANs" := TemplateStrings sans ]};
     sshutil_CreateTemplateData := λ ct keyID principals,
       {[ "Type" := TemplateString ct; "KeyID" := TemplateString keyID;
          "Principals" := TemplateStrings principals ]};
     TemplateOptions := λ o data, inr (certificateOptions o data);
     TemplateSSHOptions := λ o data, inr (sshCertificateOptions o data);
     x509util_SplitSANs := λ sans,
       (filter (λ s, parseIP s = None) sans, omap parseIP sans, [], []);
     dnsNamesValidator_Valid := λ names req,
       if within names (DNSNames req) then None
       else Some (errs_Forbidden
                    "certificate request does not contain the valid DNS names - got %v, want %v"
                    [ArgStrings (DNSNames req); ArgStrings names]);
     emailAddressesValidator_Valid := λ names req,
       if within names (EmailAddresses req) then None
       else Some (errs_Forbidden
                    "certificate request does not contain the valid email addresses - got %v, want %v"
                    [ArgStrings (EmailAddresses req); ArgStrings names]);
     urisValidator_Valid := λ names req,
       if within names (URIs req) then None
       else Some (errs_Forbidden
                    "certificate request does not contain the valid URIs - got %v, want %v"
                    [ArgStrings (URIs req); ArgStrings names]);
     net_ParseIP := parseIP;
     IP_String := λ ip,
       if bool_decide (ip = ip4 10 0 0 7) then "10.0.0.7" else "?" |}.

Definition policy (disableRenewal : bool) : Claimer :=
  {| DefaultTLSCertDuration := 24 * 60 * time_Minute;
     MinTLSCertDuration := 5 * time_Minute;
     MaxTLSCertDuration := 24 * 60 * time_Minute;
     IsDisableRenewal := disableRenewal;
     IsSSHCAEnabled := true |}.

Definition policyWithoutSSH : Claimer :=
  {| DefaultTLSCertDuration := 24 * 60 * time_Minute;
     MinTLSCertDuration := 5 * time_Minute;
     MaxTLSCertDuration := 24 * 60 * time_Minute;
     IsDisableRenewal := false;
     IsSSHCAEnabled := false |}.

Definition provisioner (disableRenewal : bool) : Nebula :=
  {| ID := ""; Nebula_Type := "Nebula"; Name := "edge1";
     Roots := [114; 111; 111; 116];
     Nebula_Claims := None; Nebula_Options := None;
     claimer := policy disableRenewal;
     caPool := {| CAs := ∅ |};
     audiences :=
       {| Sign := [signAudience]; Revoke := ["https://ca/1.0/revoke#nebula/edge1"];
          SSHSign := [sshSignAudience];
          SSHRevoke := ["https://ca/1.0/ssh/revoke#nebula/edge1"];
          SSHRenew := ["https://ca/1.0/ssh/renew#nebula/edge1"];
          SSHRekey := ["https://ca/1.0/ssh/rekey#nebula/edge1"] |} |}.

Definition clock : Time := 5100 * time_Second.

Definition W : World := world clock.
Definition p : Nebula := provisioner false.

Definition withoutSSH : Nebula :=
  {| ID := "nebula-7f3a"; Nebula_Type := "Nebula"; Name := "edge1";
     Roots := Roots p; Nebula_Claims := None; Nebula_Options := None;
     claimer := policyWithoutSSH; caPool := caPool p;
     audiences := audiences p |}.

End Sample.

(** ** Initialization and token identifiers *)

(** [errors.New] of github.com/pkg/errors: a plain error with its message. *)
Definition errors_New (msg : string) : error := LibraryError msg.

(** Modelled from the spec: errs.InternalServer (package errs is not under
    src/): an internal error with its message format and arguments. *)
Definition errs_InternalServer (format : string) (args : list FmtArg) : error :=
  StatusError InternalServer format args None.

(** Modelled from the spec: Config (package provisioner, not under src/): the
    default duration limits and the global audiences. *)
Record Config : Type := {
  Config_Claims : Claims;
  Config_Audiences : Audiences;
}.

(** [jose.Claims]: the registered claims. *)
Record jose_Claims : Type := {
  jose_Issuer : string;
  jose_Subject : string;
  jose_Audience : list string;
  jose_Expiry : option Time;
  jose_NotBefore : option Time;
  jose_IssuedAt : option Time;
  jose_ID : string;
}.

(** The Nebula struct as [Init] finds and leaves it: [claimer] and [caPool]
    are pointers and may be nil. *)
Record NebulaRaw : Type := {
  raw_ID : string;
  raw_Type : string;
  raw_Name : string;
  raw_Roots : list byte;
  raw_Claims : option Claims;
  raw_Options : option Options;
  raw_claimer : option Claimer;
  raw_caPool : option NebulaCAPool;
  raw_audiences : Audiences;
}.

(** The assignments of [Init] to the fields of the struct. *)
Definition set_claimer (p : NebulaRaw) (c : option Claimer) : NebulaRaw :=
  {| raw_ID := raw_ID p; raw_Type := raw_Type p; raw_Name := raw_Name p;
     raw_Roots := raw_Roots p; raw_Claims := raw_Claims p;
     raw_Options := raw_Options p; raw_claimer := c;
     raw_caPool := raw_caPool p; raw_audiences := raw_audiences p |}.

Definition set_caPool (p : NebulaRaw) (pool : option NebulaCAPool) : NebulaRaw :=
  {| raw_ID := raw_ID p; raw_Type := raw_Type p; raw_Name := raw_Name p;
     raw_Roots := raw_Roots p; raw_Claims := raw_Claims p;
     raw_Options := raw_Options p; raw_claimer := raw_claimer p;
     raw_caPool := pool; raw_audiences := raw_audiences p |}.

Definition set_audiences (p : NebulaRaw) (a : Audiences) : NebulaRaw :=
  {| raw_ID := raw_ID p; raw_Type := raw_Type p; raw_Name := raw_Name p;
     raw_Roots := raw_Roots p; raw_Claims := raw_Claims p;
     raw_Options := raw_Options p; raw_claimer := raw_claimer p;
     raw_caPool := raw_caPool p; raw_audiences := a |}.

(** The provisioner the other methods work on, once both pointers are
    set. *)
Definition ready (p : NebulaRaw) : option Nebula :=
  match raw_claimer p, raw_caPool p with
  | Some c, Some pool =>
    Some {| ID := raw_ID p; Nebula_Type := raw_Type p; Name := raw_Name p;
            Roots := raw_Roots p; Nebula_Claims := raw_Claims p;
            Nebula_Options := raw_Options p; claimer := c; caPool := pool;
            audiences := raw_audiences p |}
  | _, _ => None
  end.

(** [p.GetIDForToken()] on the struct as [Init] holds it. *)
Definition raw_GetIDForToken (p : NebulaRaw) : string :=
  "nebula/" +:+ raw_Name p.

(** What [Init] and [GetTokenID] call and the file does not define. *)
Class Setup : Type := {
  (** [NewClaimer] of package provisioner: the pointer and the error. *)
  NewClaimer : option Claims → Claims → option Claimer * option error;
  (** [cert.NewCAPoolFromBytes]: the pointer and the error. *)
  cert_NewCAPoolFromBytes : list byte → option NebulaCAPool * option error;
  (** [a.WithFragment(fragment)] of package provisioner. *)
  Audiences_WithFragment : Audiences → string → Audiences;
  (** [t.UnsafeClaimsWithoutVerification(&claims)]: the decoded claims. *)
  UnsafeClaimsWithoutVerification : JSONWebToken → error + jose_Claims;
  (** [errors.Wrap] of github.com/pkg/errors, on a non-nil error. *)
  errors_Wrap : error → string → error;
}.

Section Setup.
Context `{W : World} `{S : Setup}.

(** Init: the struct after the call, and the error. *)
Definition Init (p : NebulaRaw) (config : Config) : NebulaRaw * option error :=
  if bool_decide (raw_Type p = "") then
    (p, Some (errors_New "provisioner type cannot be empty"))
  else if bool_decide (raw_Name p = "") then
    (p, Some (errors_New "provisioner name cannot be empty"))
  else if bool_decide (length (raw_Roots p) = 0%nat) then
    (p, Some (errors_New "provisioner root(s) cannot be empty"))
  else
    let '(c, err) := NewClaimer (raw_Claims p) (Config_Claims config) in
    let p := set_claimer p c in
    match err with
    | Some err => (p, Some err)
    | None =>
      let '(pool, err) := cert_NewCAPoolFromBytes (raw_Roots p) in
      let p := set_caPool p pool in
      match err with
      | Some err =>
        (p, Some (errs_InternalServer "failed to start ca pool: %v"
                                      [ArgString (error_message err)]))
      | None =>
        let p :=
          set_audiences p
            (Audiences_WithFragment (Config_Audiences config)
                                    (raw_GetIDForToken p)) in
        (p, None)
      end
    end.

(** GetTokenID returns the identifier of the token. *)
Definition GetTokenID (p : Nebula) (token : string) : result string :=
  (* Validate payload *)
  match jose_ParseSigned token with
  | inl err => Err (errors_Wrap err "error parsing token")
  | inr t =>
    (* Get claims w/out verification. We need to look up the provisioner
       key in order to verify the claims and we need the issuer from the
       claims before we can look up the provisioner. *)
    match UnsafeClaimsWithoutVerification t with
    | inl err => Err (errors_Wrap err "error verifying claims")
    | inr claims => Ok (jose_ID claims)
    end
  end.

End Setup.

(** A concrete setup for the sample provisioner. *)
Module SampleSetup.

Definition globalClaims : Claims :=
  {| Claims_DisableRenewal := Some false; Claims_EnableSSHCA := Some true |}.

Definition config : Config :=
  {| Config_Claims := globalClaims;
     Config_Audiences :=
       {| Sign := ["https://ca/1.0/sign"]; Revoke := ["https://ca/1.0/revoke"];
          SSHSign := ["https://ca/1.0/ssh/sign"];
          SSHRevoke := ["https://ca/1.0/ssh/revoke"];
          SSHRenew := ["https://ca/1.0/ssh/renew"];
          SSHRekey := ["https://ca/1.0/ssh/rekey"] |} |}.

Definition withFragment (fragment : string) (s : string) : string :=
  s +:+ "#" +:+ fragment.

Definition setup : Setup :=
  {| NewClaimer := λ claims global,
       (Some {| DefaultTLSCertDuration := 24 * 60 * time_Minute;
                MinTLSCertDuration := 5 * time_Minute;
                MaxTLSCertDuration := 24 * 60 * time_Minute;
                IsDisableRenewal :=
                  default (default false (Claims_DisableRenewal global))
                          (claims ≫= Claims_DisableRenewal);
                IsSSHCAEnabled :=
                  default (default false (Claims_EnableSSHCA global))
                          (claims ≫= Claims_EnableSSHCA) |}, None);
     cert_NewCAPoolFromBytes := λ roots,
       if bool_decide (roots = [114; 111; 111; 116])
       then (Some {| CAs := {[ "root" := Sample.leaf ]} |}, None)
       else (None, Some (LibraryError "input did not contain a valid PEM encoded block"));
     Audiences_WithFragment := λ a fragment,
       {| Sign := withFragment fragment <$> Sign a;
          Revoke := withFragment fragment <$> Revoke a;
          SSHSign := withFragment fragment <$> SSHSign a;
          SSHRevoke := withFragment fragment <$> SSHRevoke a;
          SSHRenew := withFragment fragment <$> SSHRenew a;
          SSHRekey := withFragment fragment <$> SSHRekey a |};
     UnsafeClaimsWithoutVerification := λ t,
       match payload t with
       | [1] => inr {| jose_Issuer := "edge1"; jose_Subject := "node-7";
                       jose_Audience := [Sample.signAudience; Sample.sshSignAudience];
                       jose_Expiry := Some (5300 * time_Second);
                       jose_NotBefore := Some (5000 * time_Second);
                       jose_IssuedAt := Some (5000 * time_Second);
                       jose_ID := "jti-1" |}
       | _ => inl (LibraryError "unexpected end of JSON input")
       end;
     errors_Wrap := λ err msg,
       LibraryError (msg +:+ ": " +:+ error_message err) |}.

(** The struct as configuration loading leaves it. *)
Definition loaded : NebulaRaw :=
  {| raw_ID := ""; raw_Type := "Nebula"; raw_Name := "edge1";
     raw_Roots := [114; 111; 111; 116];
     raw_Claims := None; raw_Options := None;
     raw_claimer := None; raw_caPool := None;
     raw_audiences :=
       {| Sign := []; Revoke := []; SSHSign := []; SSHRevoke := [];
          SSHRenew := []; SSHRekey := [] |} |}.

(** The same with roots that do not parse, and with no name. *)
Definition badRoots : NebulaRaw :=
  {| raw_ID := ""; raw_Type := "Nebula"; raw_Name := "edge1";
     raw_Roots := [0];
     raw_Claims := None; raw_Options := None;
     raw_claimer := None; raw_caPool := None;
     raw_audiences := raw_audiences loaded |}.

Definition unnamed : NebulaRaw :=
  {| raw_ID := ""; raw_Type := "Nebula"; raw_Name := "";
     raw_Roots := [114; 111; 111; 116];
     raw_Claims := None; raw_Options := None;
     raw_claimer := None; raw_caPool := None;
     raw_audiences := raw_audiences loaded |}.

(** A world whose parser accepts a token without headers. *)
Definition headless : JSONWebToken := {| Headers := []; payload := [] |}.

Definition headlessWorld : World :=
  {| now := @now Sample.W;
     jose_ParseSigned := λ token, inr headless;
     base64_RawURLEncoding_DecodeString :=
       @base64_RawURLEncoding_DecodeString Sample.W;
     cert_UnmarshalNebulaCertificateFromPEM :=
       @cert_UnmarshalNebulaCertificateFromPEM Sample.W;
     NebulaCertificate_Verify := @NebulaCertificate_Verify Sample.W;
     jose_Verify := @jose_Verify Sample.W;
     ValidateWithLeeway := @ValidateWithLeeway Sample.W;
     matchesAudience := @matchesAudience Sample.W;
     unsafeParseSigned := @unsafeParseSigned Sample.W;
     x509util_CreateTemplateData := @x509util_CreateTemplateData Sample.W;
     sshutil_CreateTemplateData := @sshutil_CreateTemplateData Sample.W;
     TemplateOptions := @TemplateOptions Sample.W;
     TemplateSSHOptions := @TemplateSSHOptions Sample.W;
     x509util_SplitSANs := @x509util_SplitSANs Sample.W;
     dnsNamesValidator_Valid := @dnsNamesValidator_Valid Sample.W;
     emailAddressesValidator_Valid := @emailAddressesValidator_Valid Sample.W;
     urisValidator_Valid := @urisValidator_Valid Sample.W;
     net_ParseIP := @net_ParseIP Sample.W;
     IP_String := @IP_String Sample.W |}.

(** SSH sub-claims whose validity bounds lie before the Unix epoch, and the
    sample world with a token that carries them. *)
Definition earlyBounds : SignSSHOptions :=
  {| CertType := "host"; KeyID := "";
     Principals := [];
     ValidAfter := TimeDuration_at (-1 * time_Second);
     ValidBefore := TimeDuration_at (-2100 * time_Second) |}.

Definition earlyWorld : World :=
  {| now := @now Sample.W;
     jose_ParseSigned := @jose_ParseSigned Sample.W;
     base64_RawURLEncoding_DecodeString :=
       @base64_RawURLEncoding_DecodeString Sample.W;
     cert_UnmarshalNebulaCertificateFromPEM :=
       @cert_UnmarshalNebulaCertificateFromPEM Sample.W;
     NebulaCertificate_Verify := @NebulaCertificate_Verify Sample.W;
     jose_Verify := λ jwt pub,
       match pub with
       | x25519_PublicKey k =>
         if bool_decide (k = Sample.leafKey) then inr (Sample.sshClaims earlyBounds)
         else inl (LibraryError "error in cryptographic primitive")
       | ed25519_PublicKey _ => inl (LibraryError "error in cryptographic primitive")
       end;
     ValidateWithLeeway := @ValidateWithLeeway Sample.W;
     matchesAudience := @matchesAudience Sample.W;
     unsafeParseSigned := @unsafeParseSigned Sample.W;
     x509util_CreateTemplateData := @x509util_CreateTemplateData Sample.W;
     sshutil_CreateTemplateData := @sshutil_CreateTemplateData Sample.W;
     TemplateOptions := @TemplateOptions Sample.W;
     TemplateSSHOptions := @TemplateSSHOptions Sample.W;
     x509util_SplitSANs := @x509util_SplitSANs Sample.W;
     dnsNamesValidator_Valid := @dnsNamesValidator_Valid Sample.W;
     emailAddressesValidator_Valid := @emailAddressesValidator_Valid Sample.W;
     urisValidator_Valid := @urisValidator_Valid Sample.W;
     net_ParseIP := @net_ParseIP Sample.W;
     IP_String := @IP_String Sample.W |}.

(** The sample world after the mesh certificate has expired. *)
Definition lateWorld : World := Sample.world (9500 * time_Second).

(** What the operations return on the sample tokens. *)
Definition optionsOf (r : result (list SignOption)) : list SignOption :=
  match r with Ok opts => opts | _ => [] end.

Definition goodOptions : list SignOption :=
  optionsOf (@AuthorizeSign Sample.W Sample.p context_Background "good.token").

Definition ownOptions : list SignOption :=
  optionsOf (@AuthorizeSSHSign Sample.W Sample.p context_Background "own.token").

Definition initialized : NebulaRaw := (@Init setup loaded config).1.

Definition sampleHeader : Header :=
  {| KeyID_ := ""; Algorithm := "XEdDSA";
     ExtraHeaders := {[ NebulaCertHeader := JString "bGVhZg" ]} |}.

End SampleSetup.

(** * Properties *)

(** ** Identifiers *)

(** C10: GetIDForToken is "nebula/" followed by the name; GetID is the ID
    field when it is not empty and that same prefixed name otherwise; both
    depend on the provisioner through these two fields only. *)
Theorem GetID_GetIDForToken (p : Nebula) :
  GetIDForToken p = "nebula/" +:+ Name p ∧
  (ID p ≠ "" → GetID p = ID p) ∧
  (ID p = "" → GetID p = "nebula/" +:+ Name p) ∧
  (∀ q, Name q = Name p → GetIDForToken q = GetIDForToken p) ∧
  (∀ q, Name q = Name p → ID q = ID p → GetID q = GetID p).
Proof.
  unfold GetID, GetIDForToken. repeat split.
  - intros HID. by rewrite bool_decide_eq_true_2.
  - intros HID. by rewrite bool_decide_eq_false_2; [|intros Hne; apply Hne].
  - by intros q ->.
  - by intros q -> ->.
Qed.

Lemma GetID_GetIDForToken_sample :
  GetID (Sample.provisioner false) = "nebula/edge1".
Proof.
  apply (proj1 (proj2 (proj2 (GetID_GetIDForToken (Sample.provisioner false))))).
  reflexivity.
Defined.

(** ** Operations that never succeed, and renewal *)

(** C6: whatever the context and the token, AuthorizeSSHRenew returns no
    certificate and an Unauthorized error saying that SSH renew is not
    supported, and AuthorizeSSHRekey returns no certificate, no sign option
    and an Unauthorized error saying that SSH rekey is not supported. *)
Theorem AuthorizeSSHRenew_Rekey_unsupported (p : Nebula) (ctx : Context)
    (token : string) :
  (∃ e, AuthorizeSSHRenew p ctx token = (None, Some e) ∧
        error_kind e = Some Unauthorized ∧
        error_message e = "nebula provisioner does not support SSH renew") ∧
  (∃ e, AuthorizeSSHRekey p ctx token = (None, [], Some e) ∧
        error_kind e = Some Unauthorized ∧
        error_message e = "nebula provisioner does not support SSH rekey").
Proof. split; eexists; repeat split; reflexivity. Qed.

(** C7: AuthorizeRenew fails, with Unauthorized, exactly when the policy
    disables renewal, and returns nil otherwise; the certificate it is given
    plays no part. *)
Theorem AuthorizeRenew_iff_disabled (p : Nebula) (ctx : Context)
    (cert : option x509_Certificate) :
  (isKind Unauthorized (AuthorizeRenew p ctx cert) ↔
     IsDisableRenewal (claimer p) = true) ∧
  (AuthorizeRenew p ctx cert = None ↔ IsDisableRenewal (claimer p) = false) ∧
  (∀ ctx' cert', AuthorizeRenew p ctx' cert' = AuthorizeRenew p ctx cert).
Proof.
  unfold AuthorizeRenew, isKind.
  destruct (IsDisableRenewal (claimer p)); repeat split; try done.
  - intros _. by eexists.
  - by intros (e & He & _).
Qed.

Lemma AuthorizeRenew_iff_disabled_sample :
  isKind Unauthorized
    (AuthorizeRenew (Sample.provisioner true) context_Background None) ∧
  AuthorizeRenew (Sample.provisioner false) context_Background
    (Some {| x509_Raw := []; x509_NotBefore := 0; x509_NotAfter := 0 |}) = None.
Proof.
  split.
  - apply (proj1 (AuthorizeRenew_iff_disabled _ _ _)). reflexivity.
  - apply (proj1 (proj2 (AuthorizeRenew_iff_disabled _ _ _))). reflexivity.
Defined.

(** ** Token authorization *)

Section AuthorizeToken.
Context `{W : World}.

(** Every error of authorizeToken is Unauthorized. *)
Lemma authorizeToken_Err_Unauthorized p token audiences e :
  authorizeToken p token audiences = Err e → error_kind e = Some Unauthorized.
Proof.
  unfold authorizeToken, index.
  repeat (case_match; simpl; try done); by intros [= <-].
Qed.

(** A token that is accepted decodes to the result and its claims meet the
    four conditions. *)
Lemma authorizeToken_Ok_inv p token audiences c claims :
  authorizeToken p token audiences = Ok (c, claims) →
  tokenDecodesTo p token c claims ∧ claimsAccepted p claims audiences.
Proof.
  intros Hok. unfold authorizeToken, index in Hok.
  repeat (case_match; simpl in *; try done).
  all: injection Hok as <- <-.
  all: split; [eexists; split; [by repeat eexists|unfold keyOf; by case_match] |].
  all: repeat split; try done.
  all: try by apply negb_false_iff.
  all: by eapply bool_decide_eq_false_1.
Qed.

(** On a token that decodes, authorizeToken is decided by the three checks
    on the claims, in order. *)
Lemma authorizeToken_decoded p token audiences c claims :
  tokenDecodesTo p token c claims →
  authorizeToken p token audiences =
    match ValidateWithLeeway claims
            {| Expected_Issuer := Name p; Expected_Time := now |}
            time_Minute with
    | Some err => Err (errs_UnauthorizedErr err "token is not valid: invalid claims")
    | None =>
      if negb (matchesAudience (Audience claims) audiences) then
        Err (errs_Unauthorized "token is not valid: invalid claims" [])
      else if bool_decide (Subject claims = "") then
        Err (errs_Unauthorized "token is not valid: subject cannot be empty" [])
      else Ok (c, claims)
    end.
Proof.
  intros (jwt & (h & s & b & rest & verr & Hp & Hh & Hx & Hb & Hc & Hv) & Hs).
  unfold authorizeToken, index, keyOf in *.
  rewrite Hp, Hh. simpl. rewrite Hx, Hb, Hc, Hv, Hs. done.
Qed.

(** On a token that carries [c], authorizeToken is decided by the check of
    the signature under the key of [c]. *)
Lemma authorizeToken_carried p token audiences jwt c :
  tokenCarries p token jwt c →
  (∀ err, jose_Verify jwt (keyOf c) = inl err →
     authorizeToken p token audiences =
       Err (errs_UnauthorizedErr err "token is not valid: signature does not match")) ∧
  (∀ c' claims, authorizeToken p token audiences = Ok (c', claims) →
     c' = c ∧ jose_Verify jwt (keyOf c) = inr claims).
Proof.
  intros (h & s & b & rest & verr & Hp & Hh & Hx & Hb & Hc & Hv).
  unfold authorizeToken, index. rewrite Hp, Hh. simpl.
  rewrite Hx, Hb, Hc, Hv. fold (keyOf c). split.
  - intros err Herr. by rewrite Herr.
  - intros c' claims.
    destruct (jose_Verify jwt (keyOf c)) as [err|claims0]; [done|].
    repeat (case_match; try done). by intros [= <- <-].
Qed.

(** C3: for the mesh certificate a token carries, the signature of the token
    is checked under the certificate's public-key bytes taken as an Ed25519
    key when the certificate marks itself as an authority, and as an X25519
    key otherwise: a failure of that check is the Unauthorized error of
    authorizeToken, and the claims authorizeToken returns are those that
    check produced. *)
Theorem authorizeToken_verification_key p token audiences jwt c :
  tokenCarries p token jwt c →
  (Details_IsCA (Details c) = true →
     (∀ err,
        jose_Verify jwt (ed25519_PublicKey (Details_PublicKey (Details c))) = inl err →
        authorizeToken p token audiences =
          Err (errs_UnauthorizedErr err "token is not valid: signature does not match")) ∧
     (∀ c' claims, authorizeToken p token audiences = Ok (c', claims) →
        c' = c ∧
        jose_Verify jwt (ed25519_PublicKey (Details_PublicKey (Details c))) =
          inr claims)) ∧
  (Details_IsCA (Details c) = false →
     (∀ err,
        jose_Verify jwt (x25519_PublicKey (Details_PublicKey (Details c))) = inl err →
        authorizeToken p token audiences =
          Err (errs_UnauthorizedErr err "token is not valid: signature does not match")) ∧
     (∀ c' claims, authorizeToken p token audiences = Ok (c', claims) →
        c' = c ∧
        jose_Verify jwt (x25519_PublicKey (Details_PublicKey (Details c))) =
          inr claims)).
Proof.
  intros Hcarries.
  pose proof (authorizeToken_carried p token audiences jwt c Hcarries) as Hkey.
  unfold keyOf in Hkey. split; intros HCA; rewrite HCA in Hkey; exact Hkey.
Qed.

(** C4: authorizeToken returns the certificate and the claims only when the
    decoded claims meet the four conditions (the registered claims validate
    against the provisioner's name as issuer and the reference time with a
    leeway of one minute, an audience matches the accepted ones, the
    subject is not empty), it does return them then, and it fails with
    Unauthorized when the decoded claims violate any of the four. *)
Theorem authorizeToken_claims_checked p token audiences :
  (∀ c claims, authorizeToken p token audiences = Ok (c, claims) →
     tokenDecodesTo p token c claims ∧
     ValidateWithLeeway claims
       {| Expected_Issuer := Name p; Expected_Time := now |}
       (60 * 1000000000) = None ∧
     matchesAudience (Audience claims) audiences = true ∧
     Subject claims ≠ "") ∧
  (∀ c claims, tokenDecodesTo p token c claims →
     claimsAccepted p claims audiences →
     authorizeToken p token audiences = Ok (c, claims)) ∧
  (∀ c claims, tokenDecodesTo p token c claims →
     ¬ claimsAccepted p claims audiences →
     ∃ e, authorizeToken p token audiences = Err e ∧
          error_kind e = Some Unauthorized).
Proof.
  split; [|split].
  - intros c claims Hok. by apply authorizeToken_Ok_inv in Hok.
  - intros c claims Hdec (Hv & Ha & Hs).
    rewrite (authorizeToken_decoded _ _ _ _ _ Hdec), Hv, Ha. simpl.
    by rewrite bool_decide_eq_false_2.
  - intros c claims Hdec Hnot.
    destruct (authorizeToken p token audiences) as [[c' claims']|e|m] eqn:Hr.
    + exfalso. apply Hnot.
      rewrite (authorizeToken_decoded _ _ _ _ _ Hdec) in Hr.
      repeat (case_match; try done).
      injection Hr as <- <-. repeat split; try done.
      * by apply negb_false_iff.
      * by eapply bool_decide_eq_false_1.
    + exists e. split; [done|]. by eapply authorizeToken_Err_Unauthorized.
    + rewrite (authorizeToken_decoded _ _ _ _ _ Hdec) in Hr.
      by repeat (case_match; try done).
Qed.

(** ** The X.509 pipeline *)

(** C2: AuthorizeSign returns a nil error exactly on a token that
    authorizeToken accepts for the sign audience and whose template options
    render, and what it returns then is the seven sign options, in this
    order: the rendered template options, the provisioner extension for
    the Nebula type and this provisioner's name, the duration limit with
    the policy's default TLS duration and the mesh certificate's validity
    bounds, the common-name validator for the subject, the SAN validator
    for the mesh certificate's name and networks, the default public-key
    validator, and the validity validator for the policy's minimum and
    maximum TLS durations. *)
Theorem AuthorizeSign_seven_options p ctx token opts :
  AuthorizeSign p ctx token = Ok opts ↔
  ∃ cert claims templateOptions,
    authorizeToken p token (Sign (audiences p)) = Ok (cert, claims) ∧
    TemplateOptions (Nebula_Options p)
      (withTokenAndCert
         (x509util_CreateTemplateData (Subject claims) (SANs claims))
         token cert) = inr templateOptions ∧
    length opts = 7%nat ∧
    opts =
      [ templateOptions;
        newProvisionerExtensionOption TypeNebula (Name p) "";
        profileLimitDuration (DefaultTLSCertDuration (claimer p))
          (Details_NotBefore (Details cert)) (Details_NotAfter (Details cert));
        commonNameValidator (Subject claims);
        nebulaSANsValidator_
          {| sans_Name := Details_Name (Details cert);
             sans_IPs := Details_Ips (Details cert) |};
        defaultPublicKeyValidator;
        newValidityValidator (MinTLSCertDuration (claimer p))
                             (MaxTLSCertDuration (claimer p)) ].
Proof.
  unfold AuthorizeSign. split.
  - destruct (authorizeToken p token (Sign (audiences p)))
      as [[cert claims]|e|m]; simpl; [|done..].
    destruct (TemplateOptions _ _) as [err|t] eqn:Ht; [done|].
    intros [= <-]. by exists cert, claims, t.
  - intros (cert & claims & t & -> & Ht & _ & ->). simpl. by rewrite Ht.
Qed.

(** ** The SSH pipeline *)

(** Writing at the index just past a prefix. *)
Lemma insert_after_prefix {A} (pre : list A) (x y : A) (post : list A) :
  <[length pre := x]> (pre ++ y :: post) = pre ++ x :: post.
Proof. induction pre as [|z pre IH]; simpl; [done|]. by rewrite IH. Qed.

Lemma fillPrincipals_spec ips : ∀ (x : string) (pre post : list string),
  length post = length ips →
  fillPrincipals (length pre) ips (x :: pre ++ post) =
    x :: pre ++ map (λ n, IP_String (ipnet_IP n)) ips.
Proof.
  induction ips as [|n ips IH]; intros x pre post Hlen.
  - by destruct post.
  - destruct post as [|y post]; [done|]. simpl in *.
    rewrite Nat.add_1_r. simpl. rewrite insert_after_prefix.
    specialize (IH x (pre ++ [IP_String (ipnet_IP n)]) post).
    rewrite length_app, Nat.add_1_r, <- !app_assoc in IH. simpl in IH.
    apply IH. lia.
Qed.

(** The default principals are the name followed by the addresses. *)
Lemma defaultPrincipals_spec cert :
  defaultPrincipals cert =
    Details_Name (Details cert) ::
    map (λ n, IP_String (ipnet_IP n)) (Details_Ips (Details cert)).
Proof.
  unfold defaultPrincipals. rewrite Nat.add_1_r. simpl.
  apply (fillPrincipals_spec _ _ []). by rewrite length_replicate.
Qed.

(** C1, as the code has it: with SSH enabled, on a token that passes
    authorizeToken for the SSH sign audience and whose claims carry no SSH
    sub-claims (no step object, or a step object without SSH options),
    AuthorizeSSHSign panics on a nil dereference and returns nothing. *)
Theorem AuthorizeSSHSign_panics_without_ssh_claims p ctx token cert claims :
  IsSSHCAEnabled (claimer p) = true →
  authorizeToken p token (SSHSign (audiences p)) = Ok (cert, claims) →
  (Step claims = None ∨ ∃ step, Step claims = Some step ∧ SSH step = None) →
  AuthorizeSSHSign p ctx token =
    Panic "invalid memory address or nil pointer dereference".
Proof.
  intros Hssh Hok Hno. unfold AuthorizeSSHSign, stepSSHGiven.
  rewrite Hssh, Hok. simpl.
  destruct Hno as [Hnil|(step & Hstep & Hnil)].
  - by rewrite Hnil.
  - rewrite Hstep. simpl. by rewrite Hnil.
Qed.

End AuthorizeToken.

(** ** The identity validators *)

Lemma equalsSomeNetworkIP_true ip ips :
  equalsSomeNetworkIP ip ips = true ↔
  ∃ n, n ∈ ips ∧ IP_Equal ip (ipnet_IP n) = true.
Proof.
  induction ips as [|m ips IH]; simpl.
  - split; [done|]. intros (n & Hn & _). by apply elem_of_nil in Hn.
  - destruct (IP_Equal ip (ipnet_IP m)) eqn:Hm.
    + split; [|done]. intros _. exists m. split; [left|done].
    + rewrite IH. split.
      * intros (n & Hn & He). exists n. split; [by right|done].
      * intros (n & Hn & He). apply elem_of_cons in Hn as [->|Hn]; [congruence|].
        by exists n.
Qed.

Lemma equalsSomeIP_true ip ips :
  equalsSomeIP ip ips = true ↔ ∃ x, x ∈ ips ∧ IP_Equal ip x = true.
Proof.
  induction ips as [|m ips IH]; simpl.
  - split; [done|]. intros (n & Hn & _). by apply elem_of_nil in Hn.
  - destruct (IP_Equal ip m) eqn:Hm.
    + split; [|done]. intros _. exists m. split; [left|done].
    + rewrite IH. split.
      * intros (n & Hn & He). exists n. split; [by right|done].
      * intros (n & Hn & He). apply elem_of_cons in Hn as [->|Hn]; [congruence|].
        by exists n.
Qed.



(** The masks of the networks play no part in the match. *)
Lemma equalsSomeNetworkIP_masks ip ips ips' :
  map ipnet_IP ips = map ipnet_IP ips' →
  equalsSomeNetworkIP ip ips = equalsSomeNetworkIP ip ips'.
Proof.
  revert ips'. induction ips as [|m ips IH]; intros [|m' ips'] Hmap; try done.
  simpl in *. injection Hmap as -> Hmap. by rewrite (IH ips' Hmap).
Qed.

Lemma checkIPAddresses_Forbidden v req ips todo e :
  checkIPAddresses v req ips todo = Some e → error_kind e = Some Forbidden.
Proof.
  induction todo as [|ip todo IH]; simpl; [done|].
  case_match; [by intros [= <-]|done].
Qed.


Section Validators.
Context `{W : World}.

(** One round of the loop of the principal validator. *)
Lemma principalAllowed_dec v s :
  principalAllowed v s ↔
  (if bool_decide (s = principals_Name v) then true
   else match net_ParseIP s with
        | Some ip => equalsSomeNetworkIP ip (principals_IPs v)
        | None => false
        end) = true.
Proof.
  unfold principalAllowed. case_bool_decide as Hs.
  - split; [done|by left].
  - destruct (net_ParseIP s) as [ip|] eqn:Hip.
    + rewrite equalsSomeNetworkIP_true. split.
      * intros [Heq|(ip' & n & Hip' & Hn & He)]; [done|].
        injection Hip' as <-. by exists n.
      * intros (n & Hn & He). right. by exists ip, n.
    + split; [|done]. by intros [Heq|(ip' & n & Hip' & _)].
Qed.

Lemma checkPrincipals_None v got todo :
  checkPrincipals v got todo = None ↔ Forall (principalAllowed v) todo.
Proof.
  induction todo as [|s todo IH]; simpl; [done|].
  rewrite Forall_cons, <- IH, principalAllowed_dec.
  case_bool_decide as Hs; simpl; [tauto|].
  destruct (net_ParseIP s) as [ip|]; simpl; [|by split; [|intros [? _]]].
  destruct (equalsSomeNetworkIP ip (principals_IPs v)); simpl;
    [tauto|by split; [|intros [? _]]].
Qed.

Lemma checkPrincipals_Forbidden v got todo e :
  checkPrincipals v got todo = Some e → error_kind e = Some Forbidden.
Proof.
  induction todo as [|s todo IH]; simpl; [done|].
  case_match; [by intros [= <-]|done].
Qed.

(** C5: the principal validator returns nil exactly when every requested
    principal is the mesh identity name or parses as an IP address equal to
    the IP of one of the certificate's networks; otherwise its error is
    Forbidden (and so not Unauthorized). *)
Theorem nebulaPrincipalsValidator_Valid_iff (v : nebulaPrincipalsValidator)
    (got : SignSSHOptions) :
  (nebulaPrincipalsValidator_Valid v got = None ↔
     Forall (λ s, s = principals_Name v ∨
                  ∃ ip n, net_ParseIP s = Some ip ∧ n ∈ principals_IPs v ∧
                          IP_Equal ip (ipnet_IP n) = true)
            (Principals got)) ∧
  (∀ e, nebulaPrincipalsValidator_Valid v got = Some e →
        error_kind e = Some Forbidden ∧ error_kind e ≠ Some Unauthorized).
Proof.
  unfold nebulaPrincipalsValidator_Valid. split.
  - apply checkPrincipals_None.
  - intros e He. apply checkPrincipals_Forbidden in He. by rewrite He.
Qed.


End Validators.

(** C8: the result of the SAN validator is a function of the validator's
    name and networks and of the certificate request alone: two calls on the
    same validator value and the same request return the same result, in
    whatever worlds they run (at whatever reference time), as long as the
    helpers it calls are the same functions. *)
Theorem nebulaSANsValidator_Valid_deterministic (W1 W2 : World)
    (v1 v2 : nebulaSANsValidator) (req1 req2 : x509_CertificateRequest) :
  sameSANHelpers W1 W2 →
  sans_Name v1 = sans_Name v2 →
  sans_IPs v1 = sans_IPs v2 →
  req1 = req2 →
  @nebulaSANsValidator_Valid W1 v1 req1 = @nebulaSANsValidator_Valid W2 v2 req2.
Proof.
  intros (Hsplit & Hdns & Hemail & Huri) Hname Hips ->.
  destruct v1 as [n1 i1], v2 as [n2 i2]. simpl in *. subst.
  unfold nebulaSANsValidator_Valid. simpl.
  rewrite Hsplit. destruct (x509util_SplitSANs [n2]) as [[[dns ips] emails] uris].
  by rewrite Hdns, Hemail, Huri.
Qed.

(** ** The statements at the sample provisioner *)

(** ** Further properties of the operations *)

Lemma checkIPAddresses_None v req ips todo :
  checkIPAddresses v req ips todo = None ↔
  Forall (λ ip, equalsSomeIP ip ips = true ∨
                equalsSomeNetworkIP ip (sans_IPs v) = true) todo.
Proof.
  induction todo as [|ip todo IH]; simpl; [done|].
  rewrite Forall_cons, <- IH.
  destruct (equalsSomeIP ip ips); simpl; [tauto|].
  destruct (equalsSomeNetworkIP ip (sans_IPs v)); simpl; [tauto|].
  split; [done|]. by intros [[?|?] _].
Qed.

Section Further.
Context `{W : World}.

(** X1: every error of authorizeToken, and so of AuthorizeRevoke, is
    Unauthorized. *)
Theorem authorizeToken_fails_only_Unauthorized p ctx token accepted e :
  authorizeToken p token accepted = Err e ∨ AuthorizeRevoke p ctx token = Err e →
  error_kind e = Some Unauthorized.
Proof.
  intros [He|He]; [by eapply authorizeToken_Err_Unauthorized|].
  unfold AuthorizeRevoke, validateToken in He.
  destruct (authorizeToken p token (Revoke (audiences p))) as [r|e'|m] eqn:Hr;
    simpl in He; [done| |done].
  injection He as <-. by eapply authorizeToken_Err_Unauthorized.
Qed.

(** X2: when SSH is disabled for the provisioner, AuthorizeSSHSign and
    AuthorizeSSHRevoke fail with Unauthorized without looking at the
    token. *)
Theorem ssh_disabled_Unauthorized p ctx token :
  IsSSHCAEnabled (claimer p) = false →
  (∃ e, AuthorizeSSHSign p ctx token = Err e ∧ error_kind e = Some Unauthorized) ∧
  (∃ e, AuthorizeSSHRevoke p ctx token = Err e ∧ error_kind e = Some Unauthorized).
Proof.
  intros Hoff. unfold AuthorizeSSHSign, AuthorizeSSHRevoke. rewrite Hoff.
  split; by eexists.
Qed.

(** X3: on an accepted token whose claims carry SSH sub-claims,
    AuthorizeSSHSign fails with Forbidden when a requested principal is
    neither the mesh identity name nor the IP of one of the certificate's
    networks, and when a certificate type other than host is asked for. *)
Theorem AuthorizeSSHSign_Forbidden p ctx token cert claims step o :
  IsSSHCAEnabled (claimer p) = true →
  authorizeToken p token (SSHSign (audiences p)) = Ok (cert, claims) →
  Step claims = Some step →
  SSH step = Some o →
  ¬ Forall (principalAllowed
              {| principals_Name := Details_Name (Details cert);
                 principals_IPs := Details_Ips (Details cert) |})
           (Principals o) ∨
  (CertType o ≠ "" ∧ CertType o ≠ SSHHostCert) →
  ∃ e, AuthorizeSSHSign p ctx token = Err e ∧ error_kind e = Some Forbidden.
Proof.
  intros Hon Hok Hstep Hssh Hbad. unfold AuthorizeSSHSign, stepSSHGiven.
  rewrite Hon, Hok. simpl. rewrite Hstep. simpl. rewrite Hssh. simpl.
  destruct (nebulaPrincipalsValidator_Valid _ o) as [e|] eqn:Hv.
  - exists e. split; [done|]. by eapply checkPrincipals_Forbidden.
  - destruct Hbad as [Hbad|[Hset Hhost]].
    + exfalso. apply Hbad. by apply checkPrincipals_None in Hv.
    + rewrite !bool_decide_eq_true_2 by done. simpl. by eexists.
Qed.

(** X4: on an accepted token whose SSH sub-claims ask only for allowed
    principals and for a host certificate, AuthorizeSSHSign returns, in
    order: the host-certificate and token-options validators, the modifiers
    for the validity bounds the sub-claims set (each the Unix time of the
    bound converted to an unsigned 64-bit integer, so that a bound before
    the epoch wraps around), the template options rendered
    from the key id and principals (those of the sub-claims when given, the
    subject and the name followed by the addresses otherwise), the duration
    limit, and the three SSH validators. *)
Theorem AuthorizeSSHSign_with_ssh_claims p ctx token cert claims step o t :
  IsSSHCAEnabled (claimer p) = true →
  authorizeToken p token (SSHSign (audiences p)) = Ok (cert, claims) →
  Step claims = Some step →
  SSH step = Some o →
  Forall (principalAllowed
            {| principals_Name := Details_Name (Details cert);
               principals_IPs := Details_Ips (Details cert) |})
         (Principals o) →
  CertType o = "" ∨ CertType o = SSHHostCert →
  TemplateSSHOptions (Nebula_Options p)
    (withTokenAndCert
       (sshutil_CreateTemplateData sshutil_HostCert
          (if bool_decide (KeyID o = "") then Subject claims else KeyID o)
          (match Principals o with
           | [] => Details_Name (Details cert) ::
                   map (λ n, IP_String (ipnet_IP n)) (Details_Ips (Details cert))
           | _ :: _ => Principals o
           end))
       token cert) = inr t →
  AuthorizeSSHSign p ctx token =
    Ok ([ sshCertOptionsValidator
            {| CertType := SSHHostCert; KeyID := Subject claims;
               Principals := []; ValidAfter := TimeDuration_unset;
               ValidBefore := TimeDuration_unset |};
          sshCertOptionsValidator o ] ++
        (if TimeDuration_IsZero (ValidAfter o) then []
         else [sshCertValidAfterModifier
                 (Time_Unix (TimeDuration_RelativeTime (ValidAfter o) now)
                    `mod` 2 ^ 64)]) ++
        (if TimeDuration_IsZero (ValidBefore o) then []
         else [sshCertValidBeforeModifier
                 (Time_Unix (TimeDuration_RelativeTime (ValidBefore o) now)
                    `mod` 2 ^ 64)]) ++
        [ t;
          sshLimitDuration (claimer p) (Details_NotAfter (Details cert));
          sshDefaultPublicKeyValidator;
          sshCertValidityValidator (claimer p);
          sshCertDefaultValidator ]).
Proof.
  intros Hon Hok Hstep Hssh Hall Htype Ht. unfold AuthorizeSSHSign, stepSSHGiven.
  rewrite Hon, Hok. simpl. rewrite Hstep. simpl. rewrite Hssh. simpl.
  unfold nebulaPrincipalsValidator_Valid.
  rewrite (proj2 (checkPrincipals_None _ o _) Hall).
  assert (bool_decide (CertType o ≠ "") && bool_decide (CertType o ≠ SSHHostCert)
          = false) as ->.
  { destruct Htype as [->| ->]; [done|].
    rewrite (bool_decide_eq_false_2 (SSHHostCert ≠ SSHHostCert)) by (intros H; by apply H).
    apply andb_false_r. }
  simpl. rewrite defaultPrincipals_spec.
  assert ((if bool_decide (KeyID o ≠ "") then KeyID o else Subject claims)
          = (if bool_decide (KeyID o = "") then Subject claims else KeyID o)) as ->.
  { repeat case_bool_decide; done. }
  assert ((if bool_decide (0 < length (Principals o))%nat then Principals o
           else Details_Name (Details cert) ::
                map (λ n, IP_String (ipnet_IP n)) (Details_Ips (Details cert)))
          = match Principals o with
            | [] => Details_Name (Details cert) ::
                    map (λ n, IP_String (ipnet_IP n)) (Details_Ips (Details cert))
            | _ :: _ => Principals o
            end) as ->.
  { destruct (Principals o) as [|x l]; [done|].
    rewrite bool_decide_eq_true_2; [done|simpl; lia]. }
  rewrite Ht.
  destruct (TimeDuration_IsZero (ValidAfter o)),
           (TimeDuration_IsZero (ValidBefore o)); reflexivity.
Qed.

(** X5: the SAN validator returns nil exactly when the DNS names, email
    addresses and URIs of the request, where it has any, pass the validators
    for those of the identity name, and every requested IP address equals an
    IP of the identity name or the IP of one of the networks. *)
Theorem nebulaSANsValidator_Valid_iff v req dns ips emails uris :
  x509util_SplitSANs [sans_Name v] = (dns, ips, emails, uris) →
  (nebulaSANsValidator_Valid v req = None ↔
     (DNSNames req = [] ∨ dnsNamesValidator_Valid dns req = None) ∧
     (EmailAddresses req = [] ∨ emailAddressesValidator_Valid emails req = None) ∧
     (URIs req = [] ∨ urisValidator_Valid uris req = None) ∧
     Forall (λ ip, (∃ x, x ∈ ips ∧ IP_Equal ip x = true) ∨
                   (∃ n, n ∈ sans_IPs v ∧ IP_Equal ip (ipnet_IP n) = true))
            (IPAddresses req)).
Proof.
  intros Hsplit. unfold nebulaSANsValidator_Valid. rewrite Hsplit.
  assert (∀ (A : Type) (l : list A) (r : option error),
            (if bool_decide (0 < length l)%nat then r else None) = None ↔
            l = [] ∨ r = None) as Hguard.
  { intros A [|a l] r.
    - split; [by left|done].
    - rewrite bool_decide_eq_true_2 by (simpl; lia).
      split; [by right|by intros [?|?]]. }
  rewrite <- !Hguard.
  assert (Forall (λ ip, (∃ x, x ∈ ips ∧ IP_Equal ip x = true) ∨
                        (∃ n, n ∈ sans_IPs v ∧ IP_Equal ip (ipnet_IP n) = true))
                 (IPAddresses req) ↔
          (if bool_decide (0 < length (IPAddresses req))%nat
           then checkIPAddresses v req ips (IPAddresses req) else None) = None)
    as ->.
  { rewrite Hguard, checkIPAddresses_None.
    setoid_rewrite equalsSomeIP_true. setoid_rewrite equalsSomeNetworkIP_true.
    split; [by right|]. intros [->|?]; [constructor|done]. }
  repeat case_match; try tauto.
  all: split; [done|]; intros (? & ? & ? & ?); done.
Qed.

End Further.

Module SampleFacts.
Import Sample.

Lemma good_token_carries_leaf : @tokenCarries W p "good.token" (jwtOf 1) leaf.
Proof.
  exists {| KeyID_ := ""; Algorithm := "XEdDSA";
            ExtraHeaders := {[ NebulaCertHeader := JString "bGVhZg" ]} |},
         "bGVhZg"%string, [108; 101; 97; 102], [], None.
  repeat split; vm_compute; reflexivity.
Defined.

Lemma stray_token_decodes : @tokenDecodesTo W p "stray.token" leaf strayClaims.
Proof.
  exists (jwtOf 2). split; [|vm_compute; reflexivity].
  exists {| KeyID_ := ""; Algorithm := "XEdDSA";
            ExtraHeaders := {[ NebulaCertHeader := JString "bGVhZg" ]} |},
         "bGVhZg"%string, [108; 101; 97; 102], [], None.
  repeat split; vm_compute; reflexivity.
Defined.


End SampleFacts.

Lemma AuthorizeSSHSign_panics_without_ssh_claims_sample :
  @AuthorizeSSHSign Sample.W Sample.p context_Background "good.token" =
    Panic "invalid memory address or nil pointer dereference".
Proof.
  apply (@AuthorizeSSHSign_panics_without_ssh_claims Sample.W Sample.p
           context_Background "good.token" Sample.leaf Sample.goodClaims).
  - reflexivity.
  - vm_compute. reflexivity.
  - left. reflexivity.
Defined.

Lemma AuthorizeSign_seven_options_sample :
  @AuthorizeSign Sample.W Sample.p context_Background "good.token" =
    Ok [ certificateOptions None
           (@withTokenAndCert Sample.W
              (@x509util_CreateTemplateData Sample.W "node-7" ["node-7"])
              "good.token" Sample.leaf);
         newProvisionerExtensionOption TypeNebula "edge1" "";
         profileLimitDuration (24 * 60 * time_Minute)
           (1000 * time_Second) (9000 * time_Second);
         commonNameValidator "node-7";
         nebulaSANsValidator_
           {| sans_Name := "node-7";
              sans_IPs := [mkIPNet (Sample.ip4 10 0 0 7) Sample.mask24] |};
         defaultPublicKeyValidator;
         newValidityValidator (5 * time_Minute) (24 * 60 * time_Minute) ].
Proof.
  apply (proj2 (@AuthorizeSign_seven_options Sample.W Sample.p
                  context_Background "good.token" _)).
  exists Sample.leaf, Sample.goodClaims.
  eexists. split; [vm_compute; reflexivity|].
  split; [reflexivity|]. split; reflexivity.
Defined.

Lemma authorizeToken_verification_key_sample :
  Details_IsCA (Details Sample.leaf) = false ∧
  @jose_Verify Sample.W (Sample.jwtOf 1)
    (x25519_PublicKey (Details_PublicKey (Details Sample.leaf))) =
    inr Sample.goodClaims.
Proof.
  split; [reflexivity|].
  apply (proj2 (proj2
           (@authorizeToken_verification_key Sample.W Sample.p
              "good.token" [Sample.signAudience] (Sample.jwtOf 1) Sample.leaf
              SampleFacts.good_token_carries_leaf) eq_refl)
           Sample.leaf Sample.goodClaims).
  vm_compute. reflexivity.
Defined.

Lemma authorizeToken_claims_checked_sample :
  ∃ e, @authorizeToken Sample.W Sample.p "stray.token"
         [Sample.signAudience] = Err e ∧
       error_kind e = Some Unauthorized.
Proof.
  apply (proj2 (proj2
           (@authorizeToken_claims_checked Sample.W Sample.p
              "stray.token" [Sample.signAudience]))
           Sample.leaf Sample.strayClaims SampleFacts.stray_token_decodes).
  intros (_ & Haud & _). vm_compute in Haud. discriminate Haud.
Defined.

Lemma nebulaPrincipalsValidator_Valid_iff_sample :
  @nebulaPrincipalsValidator_Valid Sample.W
    {| principals_Name := "node-7";
       principals_IPs := [mkIPNet (Sample.ip4 10 0 0 7) Sample.mask24] |}
    {| CertType := "host"; KeyID := ""; Principals := ["node-7"; "10.0.0.7"];
       ValidAfter := TimeDuration_unset; ValidBefore := TimeDuration_unset |} = None.
Proof.
  apply (proj1 (@nebulaPrincipalsValidator_Valid_iff Sample.W _ _)). simpl.
  constructor; [by left|]. constructor; [|constructor].
  right. exists (Sample.ip16 10 0 0 7), (mkIPNet (Sample.ip4 10 0 0 7) Sample.mask24).
  split; [reflexivity|]. split; [left|reflexivity].
Defined.



Lemma nebulaSANsValidator_Valid_deterministic_sample :
  @nebulaSANsValidator_Valid (Sample.world (5100 * time_Second))
    {| sans_Name := "node-7";
       sans_IPs := [mkIPNet (Sample.ip4 10 0 0 7) Sample.mask24] |}
    {| CommonName := "node-7"; DNSNames := ["node-7"]; EmailAddresses := [];
       IPAddresses := [Sample.ip16 10 0 0 7]; URIs := [] |} =
  @nebulaSANsValidator_Valid (Sample.world (8800 * time_Second))
    {| sans_Name := "node-7";
       sans_IPs := [mkIPNet (Sample.ip4 10 0 0 7) Sample.mask24] |}
    {| CommonName := "node-7"; DNSNames := ["node-7"]; EmailAddresses := [];
       IPAddresses := [Sample.ip16 10 0 0 7]; URIs := [] |}.
Proof.
  apply nebulaSANsValidator_Valid_deterministic.
  - repeat split.
  - reflexivity.
  - reflexivity.
  - reflexivity.
Defined.

Lemma authorizeToken_fails_only_Unauthorized_sample :
  error_kind
    (errs_UnauthorizedErr
       (LibraryError "compact JWS format must have three parts")
       "failed to parse token") = Some Unauthorized.
Proof.
  apply (@authorizeToken_fails_only_Unauthorized Sample.W Sample.p
           context_Background "not a token" [Sample.signAudience]).
  left. vm_compute. reflexivity.
Defined.

Lemma ssh_disabled_Unauthorized_sample :
  (∃ e, @AuthorizeSSHSign Sample.W Sample.withoutSSH context_Background
          "good.token" = Err e ∧ error_kind e = Some Unauthorized) ∧
  (∃ e, @AuthorizeSSHRevoke Sample.W Sample.withoutSSH context_Background
          "good.token" = Err e ∧ error_kind e = Some Unauthorized).
Proof.
  apply (@ssh_disabled_Unauthorized Sample.W Sample.withoutSSH). reflexivity.
Defined.

Lemma AuthorizeSSHSign_Forbidden_sample :
  ∃ e, @AuthorizeSSHSign Sample.W Sample.p context_Background "foreign.token" =
         Err e ∧
       error_kind e = Some Forbidden.
Proof.
  apply (@AuthorizeSSHSign_Forbidden Sample.W Sample.p context_Background
           "foreign.token" Sample.leaf (Sample.sshClaims Sample.foreignPrincipals)
           {| SSH := Some Sample.foreignPrincipals |} Sample.foreignPrincipals).
  - reflexivity.
  - vm_compute. reflexivity.
  - reflexivity.
  - reflexivity.
  - left. intros Hall.
    apply Forall_cons in Hall as [_ Hall].
    apply Forall_cons in Hall as [[Hname|(ip & n & Hip & _)] _].
    + discriminate Hname.
    + vm_compute in Hip. discriminate Hip.
Defined.

Lemma AuthorizeSSHSign_with_ssh_claims_sample :
  @AuthorizeSSHSign SampleSetup.earlyWorld Sample.p context_Background "own.token" =
    Ok [ sshCertOptionsValidator
           {| CertType := "host"; KeyID := "node-7"; Principals := [];
              ValidAfter := TimeDuration_unset;
              ValidBefore := TimeDuration_unset |};
         sshCertOptionsValidator SampleSetup.earlyBounds;
         sshCertValidAfterModifier 18446744073709551615;
         sshCertValidBeforeModifier 18446744073709549516;
         sshCertificateOptions None
           (@withTokenAndCert SampleSetup.earlyWorld
              (@sshutil_CreateTemplateData SampleSetup.earlyWorld "host" "node-7"
                 ["node-7"; "10.0.0.7"])
              "own.token" Sample.leaf);
         sshLimitDuration (Sample.policy false) (9000 * time_Second);
         sshDefaultPublicKeyValidator;
         sshCertValidityValidator (Sample.policy false);
         sshCertDefaultValidator ].
Proof.
  apply (@AuthorizeSSHSign_with_ssh_claims SampleSetup.earlyWorld Sample.p
           context_Background "own.token" Sample.leaf
           (Sample.sshClaims SampleSetup.earlyBounds)
           {| SSH := Some SampleSetup.earlyBounds |} SampleSetup.earlyBounds).
  - reflexivity.
  - vm_compute. reflexivity.
  - reflexivity.
  - reflexivity.
  - constructor.
  - right. reflexivity.
  - reflexivity.
Defined.

Lemma nebulaSANsValidator_Valid_iff_sample :
  @nebulaSANsValidator_Valid Sample.W
    {| sans_Name := "node-7";
       sans_IPs := [mkIPNet (Sample.ip4 10 0 0 7) Sample.mask24] |}
    {| CommonName := "node-7"; DNSNames := ["node-7"]; EmailAddresses := [];
       IPAddresses := [Sample.ip16 10 0 0 7]; URIs := [] |} = None.
Proof.
  refine (proj2 (@nebulaSANsValidator_Valid_iff Sample.W
                   {| sans_Name := "node-7";
                      sans_IPs := [mkIPNet (Sample.ip4 10 0 0 7) Sample.mask24] |}
                   _ ["node-7"%string] [] [] [] _) _); [reflexivity|].
  split; [right; reflexivity|]. split; [by left|]. split; [by left|].
  constructor; [|constructor]. right.
  exists (mkIPNet (Sample.ip4 10 0 0 7) Sample.mask24).
  split; [left|reflexivity].
Defined.

(** ** Token authorization: panics, early rejections, revocation *)

Section MoreAuthorizeToken.
Context `{W : World}.

(** A token that decodes to claims meeting the four conditions is
    accepted. *)
Lemma authorizeToken_accepts p token accepted c claims :
  tokenDecodesTo p token c claims →
  claimsAccepted p claims accepted →
  authorizeToken p token accepted = Ok (c, claims).
Proof.
  intros Hdec (Hv & Ha & Hs).
  rewrite (authorizeToken_decoded _ _ _ _ _ Hdec), Hv, Ha. simpl.
  by rewrite bool_decide_eq_false_2.
Qed.

(** X6: authorizeToken panics exactly when the parsed token has no header,
    on the read of its first header; a parser that always yields a header
    leaves only acceptance and Unauthorized errors. *)
Theorem authorizeToken_Panic_iff p token accepted m :
  authorizeToken p token accepted = Panic m ↔
  m = "index out of range" ∧
  ∃ jwt, jose_ParseSigned token = inr jwt ∧ Headers jwt = [].
Proof.
  unfold authorizeToken, index.
  destruct (jose_ParseSigned token) as [err|jwt] eqn:Hp.
  - split; [done|]. by intros (_ & jwt & Hjwt & _).
  - destruct (Headers jwt) as [|h hs] eqn:Hh; simpl.
    + split.
      * intros [= <-]. split; [done|]. by exists jwt.
      * by intros (-> & _).
    + split.
      * repeat (case_match; try done).
      * intros (_ & jwt' & [= <-] & Hnil). congruence.
Qed.

(** X7: a token is rejected as Unauthorized before its signature is looked
    at when its first header has no nbc entry, when that entry is not a
    string, and when the certificate it carries does not verify against the
    roots at the reference time (the verification error, if any, is the
    cause). *)
Theorem authorizeToken_rejects_before_signature p token accepted jwt h :
  jose_ParseSigned token = inr jwt →
  Headers jwt !! 0%nat = Some h →
  (ExtraHeaders h !! NebulaCertHeader = None →
     authorizeToken p token accepted =
       Err (errs_Unauthorized "failed to parse token: nbc header is missing" [])) ∧
  (∀ v, ExtraHeaders h !! NebulaCertHeader = Some v →
        (∀ s, v ≠ JString s) →
     authorizeToken p token accepted =
       Err (errs_Unauthorized "failed to parse token: nbc header is not valid" [])) ∧
  (∀ s b c rest verr,
     ExtraHeaders h !! NebulaCertHeader = Some (JString s) →
     base64_RawURLEncoding_DecodeString s = inr b →
     cert_UnmarshalNebulaCertificateFromPEM b = inr (c, rest) →
     NebulaCertificate_Verify c now (caPool p) = (false, verr) →
     authorizeToken p token accepted =
       Err (StatusError Unauthorized
              "token is not valid: failed to unmarshal certificate" [] verr)).
Proof.
  intros Hp Hh. unfold authorizeToken, index. rewrite Hp, Hh. simpl.
  split; [|split].
  - by intros ->.
  - intros v -> Hv. destruct v as [|b|n|s]; try done. by destruct (Hv s).
  - intros s b c rest verr -> -> -> ->. by destruct verr.
Qed.

(** X8: with SSH enabled, AuthorizeSSHRevoke is AuthorizeRevoke: both
    authorize the token against the revoke audiences, and return nil exactly
    when the token decodes to claims that meet the four conditions for
    those audiences. *)
Theorem AuthorizeSSHRevoke_as_AuthorizeRevoke p ctx token :
  IsSSHCAEnabled (claimer p) = true →
  AuthorizeSSHRevoke p ctx token = AuthorizeRevoke p ctx token ∧
  (AuthorizeRevoke p ctx token = Ok () ↔
     ∃ c claims, tokenDecodesTo p token c claims ∧
                 claimsAccepted p claims (Revoke (audiences p))).
Proof.
  intros Hon. unfold AuthorizeSSHRevoke, AuthorizeRevoke, validateToken.
  rewrite Hon. simpl. split; [done|]. split.
  - destruct (authorizeToken p token (Revoke (audiences p)))
      as [[c claims]|e|m] eqn:Hr; simpl; [|done..].
    intros _. exists c, claims. by apply authorizeToken_Ok_inv.
  - intros (c & claims & Hdec & Hacc).
    by rewrite (authorizeToken_accepts _ _ _ _ _ Hdec Hacc).
Qed.

(** X9: AuthorizeSign fails only with the error of authorizeToken for the
    sign audiences or, on an accepted token, with the error of
    TemplateOptions, each returned unchanged; it panics only when
    authorizeToken does. *)
Theorem AuthorizeSign_failures p ctx token :
  (∀ e, AuthorizeSign p ctx token = Err e ↔
     authorizeToken p token (Sign (audiences p)) = Err e ∨
     ∃ cert claims,
       authorizeToken p token (Sign (audiences p)) = Ok (cert, claims) ∧
       TemplateOptions (Nebula_Options p)
         (withTokenAndCert
            (x509util_CreateTemplateData (Subject claims) (SANs claims))
            token cert) = inl e) ∧
  (∀ m, AuthorizeSign p ctx token = Panic m ↔
     authorizeToken p token (Sign (audiences p)) = Panic m).
Proof.
  unfold AuthorizeSign.
  destruct (authorizeToken p token (Sign (audiences p)))
    as [[cert claims]|e0|m0] eqn:Hr; simpl.
  - destruct (TemplateOptions _ _) as [err|t] eqn:Ht; split.
    + intros e. split.
      * intros [= <-]. right. by exists cert, claims.
      * intros [?|(cert' & claims' & [= <- <-] & Ht')]; [done|]. congruence.
    + done.
    + intros e. split; [done|].
      intros [?|(cert' & claims' & [= <- <-] & Ht')]; [done|]. congruence.
    + done.
  - split.
    + intros e. split; [intros [= <-]; by left|].
      by intros [[= <-]|(? & ? & ? & _)].
    + done.
  - split; [|intros m; split; by intros [= <-]].
    intros e. split; [done|]. by intros [?|(? & ? & ? & _)].
Qed.

(** X10: the template data both pipelines hand to the renderer holds the
    verified certificate under Cert, the parsed token under Token when the
    token parses, and every other entry as CreateTemplateData left it. *)
Theorem withTokenAndCert_lookup (data : TemplateData) token cert :
  withTokenAndCert data token cert !! "Cert" = Some (TemplateCert cert) ∧
  (∀ v, unsafeParseSigned token = inr v →
        withTokenAndCert data token cert !! TokenKey = Some (TemplateToken v)) ∧
  (∀ err, unsafeParseSigned token = inl err →
        withTokenAndCert data token cert !! TokenKey = data !! TokenKey) ∧
  (∀ k, k ≠ "Cert" → k ≠ TokenKey →
        withTokenAndCert data token cert !! k = data !! k).
Proof.
  unfold withTokenAndCert, TemplateData_SetToken, TemplateData_Set.
  split; [by rewrite lookup_insert_eq|]. split; [|split].
  - intros v ->. rewrite lookup_insert_ne by done. by rewrite lookup_insert_eq.
  - intros err ->. by rewrite lookup_insert_ne.
  - intros k Hc Ht. rewrite lookup_insert_ne by done.
    destruct (unsafeParseSigned token); [done|]. by rewrite lookup_insert_ne.
Qed.

End MoreAuthorizeToken.

(** ** The SSH pipeline and the validators, further *)

Lemma IP_Equal_refl ip : IP_Equal ip ip = true.
Proof.
  unfold IP_Equal. rewrite decide_True by done. by apply bool_decide_eq_true_2.
Qed.

Section MoreSSH.
Context `{W : World}.

(** X11: every list AuthorizeSSHSign returns belongs to an accepted token
    with SSH sub-claims whose principals are all allowed and whose
    certificate type is empty or host, and it is exactly: the validator for
    a host certificate keyed by the subject, the validator for the
    sub-claims, the valid-after modifier when the sub-claims set that bound
    and the valid-before modifier when they set that one (each holding the
    Unix time of the bound as an unsigned 64-bit integer), the template
    options TemplateSSHOptions rendered from the key id and principals of
    the sub-claims (the subject, and the name followed by the addresses,
    where the sub-claims give none), the duration limit and the three SSH
    validators. *)
Theorem AuthorizeSSHSign_Ok_inv p ctx token opts :
  AuthorizeSSHSign p ctx token = Ok opts →
  IsSSHCAEnabled (claimer p) = true ∧
  ∃ cert claims step o t,
    authorizeToken p token (SSHSign (audiences p)) = Ok (cert, claims) ∧
    Step claims = Some step ∧ SSH step = Some o ∧
    Forall (principalAllowed
              {| principals_Name := Details_Name (Details cert);
                 principals_IPs := Details_Ips (Details cert) |})
           (Principals o) ∧
    (CertType o = "" ∨ CertType o = SSHHostCert) ∧
    TemplateSSHOptions (Nebula_Options p)
      (withTokenAndCert
         (sshutil_CreateTemplateData sshutil_HostCert
            (if bool_decide (KeyID o = "") then Subject claims else KeyID o)
            (match Principals o with
             | [] => Details_Name (Details cert) ::
                     map (λ n, IP_String (ipnet_IP n)) (Details_Ips (Details cert))
             | _ :: _ => Principals o
             end))
         token cert) = inr t ∧
    opts =
      [ sshCertOptionsValidator
          {| CertType := SSHHostCert; KeyID := Subject claims;
             Principals := []; ValidAfter := TimeDuration_unset;
             ValidBefore := TimeDuration_unset |};
        sshCertOptionsValidator o ] ++
      (if TimeDuration_IsZero (ValidAfter o) then []
       else [sshCertValidAfterModifier
               (Time_Unix (TimeDuration_RelativeTime (ValidAfter o) now)
                  `mod` 2 ^ 64)]) ++
      (if TimeDuration_IsZero (ValidBefore o) then []
       else [sshCertValidBeforeModifier
               (Time_Unix (TimeDuration_RelativeTime (ValidBefore o) now)
                  `mod` 2 ^ 64)]) ++
      [ t;
        sshLimitDuration (claimer p) (Details_NotAfter (Details cert));
        sshDefaultPublicKeyValidator;
        sshCertValidityValidator (claimer p);
        sshCertDefaultValidator ].
Proof.
  unfold AuthorizeSSHSign, stepSSHGiven.
  destruct (IsSSHCAEnabled (claimer p)); simpl; [|done].
  destruct (authorizeToken p token (SSHSign (audiences p)))
    as [[cert claims]|e|m] eqn:Hr; simpl; [|done..].
  destruct (Step claims) as [step|] eqn:Hstep; simpl; [|done].
  destruct (SSH step) as [o|] eqn:Hssh; simpl; [|done].
  destruct (nebulaPrincipalsValidator_Valid _ o) as [e|] eqn:Hv; [done|].
  destruct (bool_decide (CertType o ≠ "") && bool_decide (CertType o ≠ SSHHostCert))
    eqn:Htype; [done|]. simpl.
  rewrite defaultPrincipals_spec.
  assert ((if bool_decide (KeyID o ≠ "") then KeyID o else Subject claims)
          = (if bool_decide (KeyID o = "") then Subject claims else KeyID o)) as ->.
  { repeat case_bool_decide; done. }
  assert ((if bool_decide (0 < length (Principals o))%nat then Principals o
           else Details_Name (Details cert) ::
                map (λ n, IP_String (ipnet_IP n)) (Details_Ips (Details cert)))
          = match Principals o with
            | [] => Details_Name (Details cert) ::
                    map (λ n, IP_String (ipnet_IP n)) (Details_Ips (Details cert))
            | _ :: _ => Principals o
            end) as ->.
  { destruct (Principals o) as [|x l]; [done|].
    rewrite bool_decide_eq_true_2; [done|simpl; lia]. }
  destruct (TemplateSSHOptions _ _) as [err|t] eqn:Ht; [done|].
  intros [= <-]. split; [done|].
  exists cert, claims, step, o, t.
  split; [done|]. split; [done|]. split; [done|].
  split; [by apply checkPrincipals_None in Hv|].
  split.
  { apply andb_false_iff in Htype as [Ht1|Ht2].
    - left. apply bool_decide_eq_false_1 in Ht1.
      by destruct (decide (CertType o = "")) as [|Hne]; [|destruct (Ht1 Hne)].
    - right. apply bool_decide_eq_false_1 in Ht2.
      by destruct (decide (CertType o = SSHHostCert)) as [|Hne]; [|destruct (Ht2 Hne)]. }
  split; [done|]. unfold uint64.
  destruct (TimeDuration_IsZero (ValidAfter o)),
           (TimeDuration_IsZero (ValidBefore o)); reflexivity.
Qed.

(** X12: AuthorizeSSHSign panics exactly when SSH is enabled and either
    authorizeToken panics or the accepted token carries no SSH sub-claims
    (no step object, or a step object without SSH options); with SSH
    sub-claims present it adds no panic of its own. *)
Theorem AuthorizeSSHSign_Panic_iff p ctx token m :
  AuthorizeSSHSign p ctx token = Panic m ↔
  IsSSHCAEnabled (claimer p) = true ∧
  (authorizeToken p token (SSHSign (audiences p)) = Panic m ∨
   m = "invalid memory address or nil pointer dereference" ∧
   ∃ cert claims,
     authorizeToken p token (SSHSign (audiences p)) = Ok (cert, claims) ∧
     (Step claims = None ∨ ∃ step, Step claims = Some step ∧ SSH step = None)).
Proof.
  unfold AuthorizeSSHSign, stepSSHGiven.
  destruct (IsSSHCAEnabled (claimer p)); simpl; [|by split; [|intros [? _]]].
  destruct (authorizeToken p token (SSHSign (audiences p)))
    as [[cert claims]|e|m0] eqn:Hr; simpl.
  - destruct (Step claims) as [step|] eqn:Hstep; simpl.
    + destruct (SSH step) as [o|] eqn:Hssh; simpl.
      * split.
        -- repeat (case_match; simpl; try done).
        -- intros (_ & [?|(_ & c' & cl' & [= <- <-] & [Hn|(st & Hst & Hn)])]);
             [done|congruence|]. rewrite Hstep in Hst. congruence.
      * split.
        -- intros [= <-]. split; [done|]. right. split; [done|].
           exists cert, claims. split; [done|]. right. by exists step.
        -- by intros (_ & [?|(-> & _)]).
    + split.
      * intros [= <-]. split; [done|]. right. split; [done|].
        exists cert, claims. split; [done|]. by left.
      * by intros (_ & [?|(-> & _)]).
  - split; [done|]. by intros (_ & [?|(_ & ? & ? & ? & _)]).
  - split.
    + intros [= <-]. split; [done|]. by left.
    + by intros (_ & [[= <-]|(_ & ? & ? & ? & _)]).
Qed.

(** X13: the principal validator accepts every request whose principals are
    among those of a request it accepts: the empty list, any selection,
    reordering or repetition of allowed principals. *)
Theorem nebulaPrincipalsValidator_Valid_subseteq v got got' :
  Principals got' ⊆ Principals got →
  nebulaPrincipalsValidator_Valid v got = None →
  nebulaPrincipalsValidator_Valid v got' = None.
Proof.
  unfold nebulaPrincipalsValidator_Valid. rewrite !checkPrincipals_None.
  rewrite !Forall_forall. intros Hsub Hall s Hs. apply Hall. by apply Hsub.
Qed.

(** X14: the default principals of a mesh certificate, its name followed by
    the string form of the IP of each of its networks, are principals the
    principal validator built from that certificate accepts, provided that
    parsing the string form of each of those IPs gives back an equal IP. *)
Theorem defaultPrincipals_allowed cert got :
  (∀ n, n ∈ Details_Ips (Details cert) →
        ∃ ip, net_ParseIP (IP_String (ipnet_IP n)) = Some ip ∧
              IP_Equal ip (ipnet_IP n) = true) →
  Principals got = defaultPrincipals cert →
  nebulaPrincipalsValidator_Valid
    {| principals_Name := Details_Name (Details cert);
       principals_IPs := Details_Ips (Details cert) |} got = None.
Proof.
  intros Hround Hgot. unfold nebulaPrincipalsValidator_Valid.
  rewrite checkPrincipals_None, Hgot, defaultPrincipals_spec.
  constructor; [by left|].
  rewrite Forall_forall. intros s Hs.
  apply list_elem_of_fmap in Hs as (n & -> & Hn).
  destruct (Hround n Hn) as (ip & Hip & Heq).
  right. by exists ip, n.
Qed.

(** X15: the fifth option AuthorizeSign returns is the SAN validator of the
    token's mesh certificate, and it accepts every request that names
    nothing but IP addresses of that certificate's networks. *)
Theorem AuthorizeSign_accepts_own_addresses p ctx token opts cert claims req :
  authorizeToken p token (Sign (audiences p)) = Ok (cert, claims) →
  AuthorizeSign p ctx token = Ok opts →
  DNSNames req = [] → EmailAddresses req = [] → URIs req = [] →
  (∀ ip, ip ∈ IPAddresses req → ip ∈ ipnet_IP <$> Details_Ips (Details cert)) →
  ∃ v, opts !! 4%nat = Some (nebulaSANsValidator_ v) ∧
       sans_Name v = Details_Name (Details cert) ∧
       sans_IPs v = Details_Ips (Details cert) ∧
       nebulaSANsValidator_Valid v req = None.
Proof.
  intros Hok Hsign Hdns Hemail Huri Hips.
  unfold AuthorizeSign in Hsign. rewrite Hok in Hsign. simpl in Hsign.
  destruct (TemplateOptions _ _) as [err|t] eqn:Ht; [done|].
  injection Hsign as <-.
  eexists. split; [reflexivity|]. split; [done|]. split; [done|].
  unfold nebulaSANsValidator_Valid. simpl.
  destruct (x509util_SplitSANs _) as [[[dns ips] emails] uris].
  rewrite Hdns, Hemail, Huri. simpl.
  case_bool_decide; [|done].
  apply checkIPAddresses_None. rewrite Forall_forall. intros ip Hip.
  right. apply Hips in Hip. apply list_elem_of_fmap in Hip as (n & -> & Hn).
  apply equalsSomeNetworkIP_true. exists n. split; [done|]. apply IP_Equal_refl.
Qed.

End MoreSSH.

(** ** Initialization and token identifiers *)

Section MoreSetup.
Context `{W : World} `{S : Setup}.

(** X16: when Init returns nil, the type, the name and the roots were not
    empty, the configured fields are as before, the claimer and the CA pool
    are the ones NewClaimer and NewCAPoolFromBytes returned without error,
    and the audiences are the configured ones with "nebula/" followed by the
    name as fragment. *)
Theorem Init_succeeds p config p' :
  Init p config = (p', None) →
  raw_Type p ≠ "" ∧ raw_Name p ≠ "" ∧ raw_Roots p ≠ [] ∧
  raw_ID p' = raw_ID p ∧ raw_Type p' = raw_Type p ∧ raw_Name p' = raw_Name p ∧
  raw_Roots p' = raw_Roots p ∧ raw_Claims p' = raw_Claims p ∧
  raw_Options p' = raw_Options p ∧
  NewClaimer (raw_Claims p) (Config_Claims config) = (raw_claimer p', None) ∧
  cert_NewCAPoolFromBytes (raw_Roots p) = (raw_caPool p', None) ∧
  raw_audiences p' =
    Audiences_WithFragment (Config_Audiences config) ("nebula/" +:+ raw_Name p).
Proof.
  unfold Init.
  case_bool_decide as Htype; [done|].
  case_bool_decide as Hname; [done|].
  case_bool_decide as Hroots; [done|].
  destruct (NewClaimer _ _) as [c [e|]] eqn:Hc; [done|]. simpl.
  destruct (cert_NewCAPoolFromBytes _) as [pool [e|]] eqn:Hpool; [done|].
  intros [= <-]. simpl. repeat split; try done.
  by destruct (raw_Roots p).
Qed.

(** X17: when Init returns an error it has not set the audiences and has
    changed none of the configured fields. The error is one of the three
    plain errors for an empty type, name or roots, checked in that order,
    with the struct untouched; or the error of NewClaimer, unchanged, with
    only the claimer assigned; or an internal error for the CA pool, with
    only the claimer and the pool assigned. *)
Theorem Init_fails p config p' e :
  Init p config = (p', Some e) →
  (raw_ID p' = raw_ID p ∧ raw_Type p' = raw_Type p ∧ raw_Name p' = raw_Name p ∧
   raw_Roots p' = raw_Roots p ∧ raw_Claims p' = raw_Claims p ∧
   raw_Options p' = raw_Options p ∧ raw_audiences p' = raw_audiences p) ∧
  ((p' = p ∧ raw_Type p = "" ∧
    e = errors_New "provisioner type cannot be empty") ∨
   (p' = p ∧ raw_Type p ≠ "" ∧ raw_Name p = "" ∧
    e = errors_New "provisioner name cannot be empty") ∨
   (p' = p ∧ raw_Type p ≠ "" ∧ raw_Name p ≠ "" ∧ raw_Roots p = [] ∧
    e = errors_New "provisioner root(s) cannot be empty") ∨
   (∃ c, NewClaimer (raw_Claims p) (Config_Claims config) = (c, Some e) ∧
         p' = set_claimer p c) ∨
   (∃ c pool err,
      NewClaimer (raw_Claims p) (Config_Claims config) = (c, None) ∧
      cert_NewCAPoolFromBytes (raw_Roots p) = (pool, Some err) ∧
      p' = set_caPool (set_claimer p c) pool ∧
      error_kind e = Some InternalServer ∧
      e = errs_InternalServer "failed to start ca pool: %v"
                              [ArgString (error_message err)])).
Proof.
  unfold Init.
  case_bool_decide as Htype; [intros [= <- <-]; split; [done|by left]|].
  case_bool_decide as Hname; [intros [= <- <-]; split; [done|right; by left]|].
  case_bool_decide as Hroots.
  { intros [= <- <-]. split; [done|]. right. right. left.
    repeat split; try done. by destruct (raw_Roots p). }
  destruct (NewClaimer _ _) as [c [e1|]] eqn:Hc; simpl.
  { intros [= <- <-]. split; [done|]. do 3 right. left. by exists c. }
  destruct (cert_NewCAPoolFromBytes _) as [pool [e2|]] eqn:Hpool; [|done].
  intros [= <- <-]. split; [done|]. do 4 right. by exists c, pool, e2.
Qed.

(** X19: a struct Init succeeded on, with the claimer and the pool set, is
    a provisioner with a name that is not empty, whose GetID is its ID field
    or its token identifier, and whose audiences carry its own token
    identifier, the one GetIDForToken returns, as fragment. *)
Theorem Init_ready p config p' c pool :
  Init p config = (p', None) →
  raw_claimer p' = Some c →
  raw_caPool p' = Some pool →
  ∃ q, ready p' = Some q ∧
       Name q = raw_Name p ∧ Name q ≠ "" ∧ Nebula_Type q ≠ "" ∧
       claimer q = c ∧ caPool q = pool ∧
       (GetID q = raw_ID p ∨ GetID q = GetIDForToken q) ∧
       audiences q =
         Audiences_WithFragment (Config_Audiences config) (GetIDForToken q).
Proof.
  intros Hinit Hc Hpool. unfold ready. rewrite Hc, Hpool.
  eexists. split; [reflexivity|]. simpl.
  unfold Init in Hinit.
  case_bool_decide as Htype; [done|].
  case_bool_decide as Hname; [done|].
  case_bool_decide as Hroots; [done|].
  destruct (NewClaimer _ _) as [c0 [e|]] eqn:Hc0; [done|]. simpl in Hinit.
  destruct (cert_NewCAPoolFromBytes _) as [pool0 [e|]] eqn:Hpool0; [done|].
  injection Hinit as <-. simpl in *.
  repeat split; try done.
  unfold GetID, GetIDForToken. simpl. case_bool_decide; [by left|by right].
Qed.

(** X20: GetTokenID and authorizeToken read the token through the same
    parser: when the token does not parse, GetTokenID returns the parse
    error wrapped as a plain error and authorizeToken returns it wrapped as
    Unauthorized; on a token authorizeToken accepts, GetTokenID returns the
    identifier in the unverified claims, or the error of decoding them. *)
Theorem GetTokenID_and_authorizeToken p token accepted :
  (∀ err, jose_ParseSigned token = inl err →
     GetTokenID p token = Err (errors_Wrap err "error parsing token") ∧
     authorizeToken p token accepted =
       Err (errs_UnauthorizedErr err "failed to parse token")) ∧
  (∀ c claims, authorizeToken p token accepted = Ok (c, claims) →
     ∃ jwt, jose_ParseSigned token = inr jwt ∧
       GetTokenID p token =
         match UnsafeClaimsWithoutVerification jwt with
         | inl err => Err (errors_Wrap err "error verifying claims")
         | inr unverified => Ok (jose_ID unverified)
         end).
Proof.
  split.
  - intros err Herr. unfold GetTokenID, authorizeToken. by rewrite Herr.
  - intros c claims Hok.
    apply authorizeToken_Ok_inv in Hok as [(jwt & (h & s & b & rest & verr & Hp & _) & _) _].
    exists jwt. split; [done|]. unfold GetTokenID. by rewrite Hp.
Qed.

End MoreSetup.

(** ** The failures of the SSH pipeline *)

(** X21: AuthorizeSSHSign fails only with an Unauthorized error (SSH
    disabled, or the error of authorizeToken), a Forbidden error (a
    principal or a certificate type the sub-claims may not ask for), or the
    error of TemplateSSHOptions, returned unchanged. *)
Theorem AuthorizeSSHSign_failures `{W : World} p ctx token e :
  AuthorizeSSHSign p ctx token = Err e →
  error_kind e = Some Unauthorized ∨
  error_kind e = Some Forbidden ∨
  ∃ data, TemplateSSHOptions (Nebula_Options p) data = inl e.
Proof.
  unfold AuthorizeSSHSign, stepSSHGiven.
  destruct (IsSSHCAEnabled (claimer p)); simpl; [|intros [= <-]; by left].
  destruct (authorizeToken p token (SSHSign (audiences p)))
    as [[cert claims]|e0|m] eqn:Hr; simpl; [| |done].
  - destruct (Step claims) as [step|]; simpl; [|done].
    destruct (SSH step) as [o|]; simpl; [|done].
    destruct (nebulaPrincipalsValidator_Valid _ o) as [e1|] eqn:Hv.
    { intros [= <-]. right. left. by eapply checkPrincipals_Forbidden. }
    destruct (bool_decide (CertType o ≠ "") && bool_decide (CertType o ≠ SSHHostCert));
      simpl; [intros [= <-]; right; by left|].
    destruct (TemplateSSHOptions _ _) as [err|t] eqn:Ht; [|done].
    intros [= <-]. right. right. by eexists.
  - intros [= <-]. left. by eapply authorizeToken_Err_Unauthorized.
Qed.

(** ** The further statements at the sample provisioner *)

Lemma authorizeToken_Panic_iff_sample :
  @authorizeToken SampleSetup.headlessWorld Sample.p "any.token"
    [Sample.signAudience] = Panic "index out of range".
Proof.
  apply (proj2 (@authorizeToken_Panic_iff SampleSetup.headlessWorld Sample.p
                  "any.token" [Sample.signAudience] "index out of range")).
  split; [reflexivity|]. exists SampleSetup.headless. split; reflexivity.
Defined.

Lemma authorizeToken_rejects_before_signature_sample :
  @authorizeToken SampleSetup.lateWorld Sample.p "good.token"
    [Sample.signAudience] =
    Err (StatusError Unauthorized
           "token is not valid: failed to unmarshal certificate" []
           (Some (LibraryError "certificate is expired"))).
Proof.
  apply (proj2 (proj2
           (@authorizeToken_rejects_before_signature SampleSetup.lateWorld
              Sample.p "good.token" [Sample.signAudience] (Sample.jwtOf 1)
              SampleSetup.sampleHeader eq_refl eq_refl))
           "bGVhZg"%string [108; 101; 97; 102] Sample.leaf []).
  - reflexivity.
  - reflexivity.
  - reflexivity.
  - vm_compute. reflexivity.
Defined.

Lemma AuthorizeSSHRevoke_as_AuthorizeRevoke_sample :
  @AuthorizeSSHRevoke Sample.W Sample.p context_Background "good.token" =
  @AuthorizeRevoke Sample.W Sample.p context_Background "good.token".
Proof.
  apply (proj1 (@AuthorizeSSHRevoke_as_AuthorizeRevoke Sample.W Sample.p
                  context_Background "good.token" eq_refl)).
Defined.

Lemma AuthorizeSign_failures_sample :
  @AuthorizeSign Sample.W Sample.p context_Background "stray.token" =
    Err (errs_Unauthorized "token is not valid: invalid claims" []).
Proof.
  apply (proj2 (proj1 (@AuthorizeSign_failures Sample.W Sample.p
                         context_Background "stray.token") _)).
  left. vm_compute. reflexivity.
Defined.

Lemma withTokenAndCert_lookup_sample :
  @withTokenAndCert Sample.W
    (@x509util_CreateTemplateData Sample.W "node-7" ["node-7"])
    "good.token" Sample.leaf !! "Subject" = Some (TemplateString "node-7").
Proof.
  rewrite (proj2 (proj2 (proj2 (@withTokenAndCert_lookup Sample.W _ _ _)))
             "Subject"%string); [reflexivity|discriminate|discriminate].
Defined.

Lemma AuthorizeSSHSign_Ok_inv_sample :
  IsSSHCAEnabled (claimer Sample.p) = true ∧
  ∃ cert claims step o t,
    @authorizeToken Sample.W Sample.p "own.token" (SSHSign (audiences Sample.p)) =
      Ok (cert, claims) ∧
    Step claims = Some step ∧ SSH step = Some o ∧
    Forall (@principalAllowed Sample.W
              {| principals_Name := Details_Name (Details cert);
                 principals_IPs := Details_Ips (Details cert) |})
           (Principals o) ∧
    (CertType o = "" ∨ CertType o = SSHHostCert) ∧
    @TemplateSSHOptions Sample.W (Nebula_Options Sample.p)
      (@withTokenAndCert Sample.W
         (@sshutil_CreateTemplateData Sample.W sshutil_HostCert
            (if bool_decide (KeyID o = "") then Subject claims else KeyID o)
            (match Principals o with
             | [] => Details_Name (Details cert) ::
                     map (λ n, @IP_String Sample.W (ipnet_IP n))
                         (Details_Ips (Details cert))
             | _ :: _ => Principals o
             end))
         "own.token" cert) = inr t ∧
    SampleSetup.ownOptions =
      [ sshCertOptionsValidator
          {| CertType := SSHHostCert; KeyID := Subject claims;
             Principals := []; ValidAfter := TimeDuration_unset;
             ValidBefore := TimeDuration_unset |};
        sshCertOptionsValidator o ] ++
      (if TimeDuration_IsZero (ValidAfter o) then []
       else [sshCertValidAfterModifier
               (Time_Unix (TimeDuration_RelativeTime (ValidAfter o) (@now Sample.W))
                  `mod` 2 ^ 64)]) ++
      (if TimeDuration_IsZero (ValidBefore o) then []
       else [sshCertValidBeforeModifier
               (Time_Unix (TimeDuration_RelativeTime (ValidBefore o) (@now Sample.W))
                  `mod` 2 ^ 64)]) ++
      [ t;
        sshLimitDuration (claimer Sample.p) (Details_NotAfter (Details cert));
        sshDefaultPublicKeyValidator;
        sshCertValidityValidator (claimer Sample.p);
        sshCertDefaultValidator ].
Proof.
  apply (@AuthorizeSSHSign_Ok_inv Sample.W Sample.p context_Background "own.token").
  vm_compute. reflexivity.
Defined.

Lemma AuthorizeSSHSign_Panic_iff_sample :
  @AuthorizeSSHSign SampleSetup.headlessWorld Sample.p context_Background
    "any.token" = Panic "index out of range".
Proof.
  apply (proj2 (@AuthorizeSSHSign_Panic_iff SampleSetup.headlessWorld Sample.p
                  context_Background "any.token" "index out of range")).
  split; [reflexivity|]. left. vm_compute. reflexivity.
Defined.

Lemma nebulaPrincipalsValidator_Valid_subseteq_sample :
  @nebulaPrincipalsValidator_Valid Sample.W
    {| principals_Name := "node-7";
       principals_IPs := [mkIPNet (Sample.ip4 10 0 0 7) Sample.mask24] |}
    {| CertType := ""; KeyID := ""; Principals := ["10.0.0.7"; "10.0.0.7"];
       ValidAfter := TimeDuration_unset; ValidBefore := TimeDuration_unset |} = None.
Proof.
  apply (@nebulaPrincipalsValidator_Valid_subseteq Sample.W _ Sample.ownPrincipals).
  - intros s Hs. simpl in *.
    apply elem_of_cons in Hs as [->|Hs]; [right; left|].
    apply elem_of_cons in Hs as [->|Hs]; [right; left|].
    by apply elem_of_nil in Hs.
  - vm_compute. reflexivity.
Defined.

Lemma defaultPrincipals_allowed_sample :
  @nebulaPrincipalsValidator_Valid Sample.W
    {| principals_Name := "node-7";
       principals_IPs := [mkIPNet (Sample.ip4 10 0 0 7) Sample.mask24] |}
    Sample.ownPrincipals = None.
Proof.
  apply (@defaultPrincipals_allowed Sample.W Sample.leaf Sample.ownPrincipals).
  - intros n Hn. apply elem_of_cons in Hn as [->|Hn].
    + exists (Sample.ip16 10 0 0 7). split; reflexivity.
    + by apply elem_of_nil in Hn.
  - vm_compute. reflexivity.
Defined.

Lemma AuthorizeSign_accepts_own_addresses_sample :
  ∃ v, SampleSetup.goodOptions !! 4%nat = Some (nebulaSANsValidator_ v) ∧
       sans_Name v = "node-7" ∧
       sans_IPs v = [mkIPNet (Sample.ip4 10 0 0 7) Sample.mask24] ∧
       @nebulaSANsValidator_Valid Sample.W v
         {| CommonName := "node-7"; DNSNames := []; EmailAddresses := [];
            IPAddresses := [Sample.ip4 10 0 0 7]; URIs := [] |} = None.
Proof.
  apply (@AuthorizeSign_accepts_own_addresses Sample.W Sample.p
           context_Background "good.token" SampleSetup.goodOptions
           Sample.leaf Sample.goodClaims).
  - vm_compute. reflexivity.
  - vm_compute. reflexivity.
  - reflexivity.
  - reflexivity.
  - reflexivity.
  - intros ip Hip. exact Hip.
Defined.

Lemma Init_succeeds_sample :
  raw_Name SampleSetup.initialized = "edge1" ∧
  raw_audiences SampleSetup.initialized =
    @Audiences_WithFragment SampleSetup.setup
      (Config_Audiences SampleSetup.config) "nebula/edge1".
Proof.
  pose proof (@Init_succeeds SampleSetup.setup SampleSetup.loaded
                SampleSetup.config SampleSetup.initialized eq_refl)
    as (_ & _ & _ & _ & _ & Hname & _ & _ & _ & _ & _ & Haud).
  split; [exact Hname|exact Haud].
Defined.

Lemma Init_fails_sample :
  raw_audiences (@Init SampleSetup.setup SampleSetup.badRoots SampleSetup.config).1 =
    raw_audiences SampleSetup.badRoots ∧
  raw_Name (@Init SampleSetup.setup SampleSetup.unnamed SampleSetup.config).1 = "".
Proof.
  split.
  - apply (@Init_fails SampleSetup.setup SampleSetup.badRoots SampleSetup.config _
             (errs_InternalServer "failed to start ca pool: %v"
                [ArgString "input did not contain a valid PEM encoded block"])).
    vm_compute. reflexivity.
  - apply (@Init_fails SampleSetup.setup SampleSetup.unnamed SampleSetup.config _
             (errors_New "provisioner name cannot be empty")).
    vm_compute. reflexivity.
Defined.

Lemma Init_ready_sample :
  ∃ q, ready SampleSetup.initialized = Some q ∧
       Name q = "edge1" ∧
       audiences q =
         @Audiences_WithFragment SampleSetup.setup
           (Config_Audiences SampleSetup.config) (GetIDForToken q).
Proof.
  destruct (@Init_ready SampleSetup.setup SampleSetup.loaded SampleSetup.config
              SampleSetup.initialized _ _ eq_refl eq_refl eq_refl)
    as (q & Hq & Hname & _ & _ & _ & _ & _ & Haud).
  exists q. split; [exact Hq|]. split; [exact Hname|exact Haud].
Defined.

Lemma GetTokenID_and_authorizeToken_sample :
  @GetTokenID Sample.W SampleSetup.setup Sample.p "good.token" = Ok "jti-1".
Proof.
  destruct (proj2 (@GetTokenID_and_authorizeToken Sample.W SampleSetup.setup
                     Sample.p "good.token" [Sample.signAudience])
              Sample.leaf Sample.goodClaims)
    as (jwt & Hjwt & Hid).
  - vm_compute. reflexivity.
  - injection Hjwt as <-. exact Hid.
Defined.

Lemma AuthorizeSSHSign_failures_sample :
  ∃ e, @AuthorizeSSHSign Sample.W Sample.p context_Background "stray.token" = Err e ∧
       (error_kind e = Some Unauthorized ∨
        error_kind e = Some Forbidden ∨
        ∃ data, @TemplateSSHOptions Sample.W (Nebula_Options Sample.p) data = inl e).
Proof.
  exists (errs_Unauthorized "token is not valid: invalid claims" []).
  split; [vm_compute; reflexivity|].
  apply (@AuthorizeSSHSign_failures Sample.W Sample.p context_Background
           "stray.token").
  vm_compute. reflexivity.
Defined.
